(** * AtmoSight weather-insight dashboard: the statistical pipeline of app.py

    The script fetches a daily series for one variable, turns it into a
    frame sorted by date ([build_dataframe]), keeps the rows that fall on
    one day of the year ([selected]), and derives mean, population standard
    deviation, extremes, a tail frequency, a least-squares slope and two
    text labels from them.

    Numbers.  The pipeline is first modelled with a float cell being NaN
    or an exact real ([R]): this carries the control flow, the exceptions,
    the missing values and the labels, and leaves rounding, overflow and
    infinities aside.  Where rounding decides the outcome (which values
    lie above mean + 2 std), lines 230-236 are modelled again over IEEE
    binary64 numbers in [Binary64], with the operations in the order in
    which pandas and numpy perform them.  Python exceptions are the
    [Raise] outcome of the [result] type. *)

From Stdlib Require Import List String Ascii Bool ZArith Reals Lra Lia.
From Stdlib Require Import Permutation Sorted DecimalString.
From Stdlib Require Floats Uint63.
Import ListNotations.

Open Scope string_scope.
Open Scope Z_scope.

(** ** Outcomes of Python code *)

Inductive exn : Type :=
| KeyError (key : string)
| TypeError (msg : string)
| DateParseError (text : string)
| LinAlgError (msg : string).

Inductive result (A : Type) : Type :=
| Return (a : A)
| Raise (e : exn).

Arguments Return {A} a.
Arguments Raise {A} e.

Definition bind {A B : Type} (m : result A) (k : A -> result B) : result B :=
  match m with
  | Return a => k a
  | Raise e => Raise e
  end.

Notation "x <- m ;; k" := (bind m (fun x => k))
  (at level 61, m at next level, right associativity).

Definition raises {A : Type} (m : result A) : Prop :=
  exists e, m = Raise e.

(** ** Float cells *)

Inductive float64 : Type :=
| NaN
| Num (r : R).

Definition Rgtb (a b : R) : bool := if Rlt_dec b a then true else false.
Definition Rltb' (a b : R) : bool := if Rlt_dec a b then true else false.

(** [a > b] and [a < b] on cells: every comparison with NaN is False. *)
Definition fgt (a b : float64) : bool :=
  match a, b with
  | Num x, Num y => Rgtb x y
  | _, _ => false
  end.

Definition flt (a b : float64) : bool :=
  match a, b with
  | Num x, Num y => Rltb' x y
  | _, _ => false
  end.

Definition fadd (a b : float64) : float64 :=
  match a, b with
  | Num x, Num y => Num (x + y)
  | _, _ => NaN
  end.

Definition fmul (a b : float64) : float64 :=
  match a, b with
  | Num x, Num y => Num (x * y)
  | _, _ => NaN
  end.

Definition isna (a : float64) : bool :=
  match a with
  | NaN => true
  | Num _ => false
  end.

(** ** Dates *)

(** [pd.to_datetime] yields a Timestamp or NaT.  The keys of the service
    are calendar days, so a Timestamp is kept at day resolution. *)
Inductive datetime : Type :=
| NaT
| Timestamp (year month day : Z).

Definition is_leap_year (y : Z) : bool :=
  (y mod 4 =? 0) && (negb (y mod 100 =? 0) || (y mod 400 =? 0)).

Definition days_before_month (leap : bool) (m : Z) : Z :=
  let feb := if leap then 29 else 28 in
  match m with
  | 1 => 0
  | 2 => 31
  | 3 => 31 + feb
  | 4 => 62 + feb
  | 5 => 92 + feb
  | 6 => 123 + feb
  | 7 => 153 + feb
  | 8 => 184 + feb
  | 9 => 215 + feb
  | 10 => 245 + feb
  | 11 => 276 + feb
  | _ => 306 + feb
  end.

(** [.dt.dayofyear]: NaN (here [None]) on NaT. *)
Definition dayofyear (d : datetime) : option Z :=
  match d with
  | NaT => None
  | Timestamp y m dd => Some (days_before_month (is_leap_year y) m + dd)
  end.

(** [.dt.year] as handed to numpy: a float column, NaN on NaT. *)
Definition year (d : datetime) : float64 :=
  match d with
  | NaT => NaN
  | Timestamp y _ _ => Num (IZR y)
  end.

(** Order used by [sort_values("date")]: chronological, NaT last
    (na_position="last"). *)
Definition date_leb (a b : datetime) : bool :=
  match a, b with
  | _, NaT => true
  | NaT, Timestamp _ _ _ => false
  | Timestamp y1 m1 d1, Timestamp y2 m2 d2 =>
      (y1 <? y2) || ((y1 =? y2) && ((m1 <? m2) || ((m1 =? m2) && (d1 <=? d2))))
  end.

Definition date_le (a b : datetime) : Prop := date_leb a b = true.

(** ** Frames *)

(** One row of the frame: the "date" column and the column of the chosen
    variable.  A JSON null is written NaN: pandas keeps it as NaN in a
    float64 column, and as None in a column of object dtype when every
    value of the mapping is null (see [object_column]). *)
Record row : Type := mkRow { date : datetime; value : float64 }.

(** A frame carries its column labels: [pd.DataFrame([])] has none. *)
Record DataFrame : Type := mkFrame { columns : list string; rows : list row }.

(** A JSON object, in arrival order. *)
Definition dict (A : Type) : Type := list (string * A).

Fixpoint get {A : Type} (d : dict A) (k : string) (default : A) : A :=
  match d with
  | [] => default
  | (k', v) :: rest => if String.eqb k k' then v else get rest k default
  end.

Definition series := dict float64.
Definition json_response := dict (dict (dict series)).

(** ** Time-series normalizer: [build_dataframe] *)

(** [pd.DataFrame(records)]: the columns come from the keys of the record
    dicts, so an empty list of records gives a frame without columns. *)
Definition pd_DataFrame (parameter : string) (records : list row) : DataFrame :=
  match records with
  | [] => mkFrame [] []
  | _ :: _ => mkFrame ["date"; parameter] records
  end.

Fixpoint insert_by_date (r : row) (rs : list row) : list row :=
  match rs with
  | [] => [r]
  | r' :: rest =>
      if date_leb (date r) (date r') then r :: rs
      else r' :: insert_by_date r rest
  end.

(** Ascending sort on the "date" column.  pandas does not promise an order
    among equal dates; this model keeps their arrival order. *)
Definition sort_rows (rs : list row) : list row :=
  fold_right insert_by_date [] rs.

(** The "date" column of a list of rows. *)
Definition dates (rs : list row) : list datetime := map date rs.

(** [df.sort_values(label)]: an unknown column label is a KeyError. *)
Definition sort_values (label : string) (df : DataFrame) : result DataFrame :=
  if existsb (String.eqb label) (columns df)
  then Return (mkFrame (columns df) (sort_rows (rows df)))
  else Raise (KeyError label).

(** [reset_index(drop=True)] renumbers the rows; their position in the list
    is the index. *)
Definition reset_index (df : DataFrame) : DataFrame := df.

Section Normalizer.

(** [pd.to_datetime] on one key: a Timestamp, NaT, or an exception. *)
Variable to_datetime : string -> result datetime.

(** The list comprehension of [build_dataframe], in the order of
    [data.items()]: the first key that fails to parse ends it. *)
Fixpoint records (data : series) : result (list row) :=
  match data with
  | [] => Return []
  | (k, v) :: rest =>
      d <- to_datetime k ;;
      rs <- records rest ;;
      Return (mkRow d v :: rs)
  end.

Definition build_dataframe (json_resp : json_response) (parameter : string)
  : result DataFrame :=
  let data := get (get (get json_resp "properties" []) "parameter" [])
                  parameter [] in
  recs <- records data ;;
  df <- sort_values "date" (pd_DataFrame parameter recs) ;;
  Return (reset_index df).

End Normalizer.

(** The response that carries [data] for [parameter], as the service sends
    it. *)
Definition response_of (parameter : string) (data : series) : json_response :=
  [("properties", [("parameter", [(parameter, data)])])].

(** ** A concrete key parser

    The service names days [YYYYMMDD].  This instance of [pd.to_datetime]
    reads that form and the empty string (NaT); every other key is taken as
    unparseable. *)

Definition digit_of (c : ascii) : option Z :=
  let n := Z.of_nat (nat_of_ascii c) in
  if (48 <=? n) && (n <=? 57) then Some (n - 48) else None.

Fixpoint digits_value (acc : Z) (s : string) : option Z :=
  match s with
  | EmptyString => Some acc
  | String c rest =>
      match digit_of c with
      | Some d => digits_value (10 * acc + d) rest
      | None => None
      end
  end.

Definition days_in_month (leap : bool) (m : Z) : Z :=
  match m with
  | 2 => if leap then 29 else 28
  | 4 | 6 | 9 | 11 => 30
  | _ => 31
  end.

Definition to_datetime_compact (k : string) : result datetime :=
  if String.eqb k "" then Return NaT
  else if negb (Nat.eqb (String.length k) 8) then Raise (DateParseError k)
  else
    match digits_value 0 k with
    | None => Raise (DateParseError k)
    | Some n =>
        let y := n / 10000 in
        let m := (n / 100) mod 100 in
        let d := n mod 100 in
        if (1 <=? m) && (m <=? 12) && (1 <=? d)
           && (d <=? days_in_month (is_leap_year y) m)
        then Return (Timestamp y m d)
        else Raise (DateParseError k)
    end.

(** ** Day-of-year selector *)

Definition doy_is (D : Z) (r : row) : bool :=
  match dayofyear (date r) with
  | Some n => n =? D
  | None => false
  end.

(** [selected = df[df["doy"] == tm_yday]] *)
Definition selected (df : DataFrame) (tm_yday : Z) : list row :=
  filter (doy_is tm_yday) (rows df).

(** ** Descriptive statistics *)

Open Scope R_scope.

Fixpoint dropna (col : list float64) : list R :=
  match col with
  | [] => []
  | NaN :: rest => dropna rest
  | Num r :: rest => r :: dropna rest
  end.

(** [values = selected[var].dropna()] *)
Definition values (sel : list row) : list R := dropna (map value sel).

Definition Rsum (l : list R) : R := fold_right Rplus 0 l.

(** [Series.mean()]: NaN on an empty series.  Exact arithmetic; the
    doubles that pandas returns are in [Binary64]. *)
Definition mean (vs : list R) : float64 :=
  match vs with
  | [] => NaN
  | _ :: _ => Num (Rsum vs / INR (List.length vs))
  end.

(** [Series.std(ddof)]: the square root of the sum of squared deviations
    from the mean over [count - ddof]; NaN when [count <= ddof]. *)
Definition std (ddof : nat) (vs : list R) : float64 :=
  if (List.length vs <=? ddof)%nat then NaN
  else
    let avg := Rsum vs / INR (List.length vs) in
    let sqr := map (fun v => (avg - v) * (avg - v)) vs in
    Num (sqrt (Rsum sqr / INR (List.length vs - ddof))).

Definition series_max (vs : list R) : float64 :=
  match vs with
  | [] => NaN
  | v :: rest => Num (fold_left Rmax rest v)
  end.

Definition series_min (vs : list R) : float64 :=
  match vs with
  | [] => NaN
  | v :: rest => Num (fold_left Rmin rest v)
  end.

(** [values > t] for a scalar [t]. *)
Definition gt_scalar (vs : list R) (t : float64) : list bool :=
  map (fun v => fgt (Num v) t) vs.

Definition count_true (bs : list bool) : nat :=
  List.length (filter (fun b => b) bs).

(** [.mean()] of a boolean series: the share of True. *)
Definition mean_bool (bs : list bool) : float64 :=
  match bs with
  | [] => NaN
  | _ :: _ => Num (INR (count_true bs) / INR (List.length bs))
  end.

Definition mean_val (sel : list row) : float64 := mean (values sel).
Definition std_val (sel : list row) : float64 := std 0 (values sel).
Definition max_val (sel : list row) : float64 := series_max (values sel).
Definition min_val (sel : list row) : float64 := series_min (values sel).

(** [prob_extreme = (values > mean_val + 2 * std_val).mean()] *)
Definition prob_extreme (sel : list row) : float64 :=
  mean_bool (gt_scalar (values sel)
                       (fadd (mean_val sel) (fmul (Num 2) (std_val sel)))).

(** ** Trend estimator *)

Definition Rsquares (l : list R) : R := Rsum (map (fun a => a * a) l).

Definition Rdot (xs ys : list R) : R :=
  Rsum (map (fun p => fst p * snd p) (combine xs ys)).

(** [np.polyfit(x, y, 1)[0]], by numpy's documented behaviour:
    - an empty [x] is rejected with a TypeError, as are vectors of
      different lengths;
    - a NaN among the abscissae makes the SVD fail (LinAlgError), a NaN
      among the ordinates gives NaN coefficients;
    - with at least two distinct abscissae the result is the least-squares
      slope, given here exactly; numpy returns it up to the rounding of its
      SVD solve, so the sign of a slope that is 0 in exact arithmetic is
      not determined by this model;
    - otherwise (all abscissae equal to [X]) the system is rank deficient:
      numpy warns and returns the minimum-norm solution of the
      column-scaled system, whose slope is [mean(y) / (2 X)]; for [X = 0]
      the scaling divides by zero and the SVD fails. *)
Definition polyfit_slope (x y : list float64) : result float64 :=
  match x with
  | [] => Raise (TypeError "expected non-empty vector for x")
  | _ :: _ =>
      if negb (Nat.eqb (List.length x) (List.length y))
      then Raise (TypeError "expected x and y to have same length")
      else if existsb isna x
      then Raise (LinAlgError "SVD did not converge in Linear Least Squares")
      else if existsb isna y then Return NaN
      else
        let xs := dropna x in
        let ys := dropna y in
        let n := INR (List.length xs) in
        let det := n * Rsquares xs - Rsum xs * Rsum xs in
        if Req_dec_T det 0
        then
          let X := hd 0 xs in
          if Req_dec_T X 0
          then Raise (LinAlgError "SVD did not converge in Linear Least Squares")
          else Return (Num ((Rsum ys / n) / (2 * X)))
        else Return (Num ((n * Rdot xs ys - Rsum xs * Rsum ys) / det))
  end.

(** [slope = np.polyfit(selected["date"].dt.year, selected[var], 1)[0]]:
    the whole column of [selected], missing values included. *)
Definition slope (sel : list row) : result float64 :=
  polyfit_slope (map (fun r => year (date r)) sel) (map value sel).

(** ["increasing" if slope > 0 else "decreasing" if slope < 0 else "stable"] *)
Definition trend_text (s : float64) : string :=
  if fgt s (Num 0) then "increasing"%string
  else if flt s (Num 0) then "decreasing"%string
  else "stable"%string.

(** ** Insight *)

(** ['more volatile' if prob_extreme > 0.15 else 'generally stable'] *)
Definition volatility_label (p : float64) : string :=
  if fgt p (Num (15 / 100)) then "more volatile"%string
  else "generally stable"%string.

(** ** The analysis of one run *)

Record Statistics : Type := mkStatistics {
  st_mean : float64;
  st_std : float64;
  st_max : float64;
  st_min : float64;
  st_prob_extreme : float64
}.

Definition statistics (sel : list row) : Statistics :=
  mkStatistics (mean_val sel) (std_val sel) (max_val sel) (min_val sel)
               (prob_extreme sel).

Record Analysis : Type := mkAnalysis {
  an_selected : list row;
  an_stats : Statistics;
  an_slope : float64;
  an_trend_text : string;
  an_volatility : string
}.

(** The dtype of the value column: when every value of the mapping is
    null, [pd.DataFrame] has only None to store and the column is of
    object dtype; one number makes it float64, with NaN for the nulls. *)
Definition object_column (df : DataFrame) : bool :=
  forallb isna (map value (rows df)).

(** Line 237 on the frame of the run.  [np.polyfit] starts with
    [y + 0.0]: on a non-empty object column of None this is a TypeError;
    on an empty one nothing is added and the empty-vector check follows. *)
Definition polyfit_on (df : DataFrame) (sel : list row) : result float64 :=
  match sel with
  | [] => slope sel
  | _ :: _ =>
      if object_column df
      then Raise (TypeError
                    "unsupported operand type(s) for +: 'NoneType' and 'float'")
      else slope sel
  end.

(** Lines 227-251 of the script, in their order: selection, statistics,
    fit, labels.  An exception of the fit ends the run. *)
Definition analysis (df : DataFrame) (tm_yday : Z) : result Analysis :=
  let sel := selected df tm_yday in
  let stats := statistics sel in
  s <- polyfit_on df sel ;;
  Return (mkAnalysis sel stats s (trend_text s)
                     (volatility_label (st_prob_extreme stats))).

(** ** Vocabulary of the specification *)

(** No record of the frame falls on day [D]. *)
Definition no_record_on (df : DataFrame) (D : Z) : Prop :=
  forall r, In r (rows df) -> doy_is D r = false.

(** The row carries a Timestamp, not NaT. *)
Definition has_timestamp (r : row) : Prop :=
  exists y m d, date r = Timestamp y m d.

(** Years in which a sample has a present value. *)
Fixpoint present_years (sel : list row) : list Z :=
  match sel with
  | [] => []
  | r :: rest =>
      match date r, value r with
      | Timestamp y _ _, Num _ => y :: present_years rest
      | _, _ => present_years rest
      end
  end.

Definition distinct_years (sel : list row) : nat :=
  List.length (nodup Z.eq_dec (present_years sel)).

(** Population standard deviation in the words of the specification: the
    square root of the mean squared distance to the mean, divisor N. *)
Definition population_std_dev (vs : list R) : R :=
  let N := INR (List.length vs) in
  let mu := Rsum vs / N in
  sqrt (Rsum (map (fun v => (v - mu) ^ 2) vs) / N).

(** Sample standard deviation, divisor N - 1. *)
Definition sample_std_dev (vs : list R) : R :=
  let N := INR (List.length vs) in
  let mu := Rsum vs / N in
  sqrt (Rsum (map (fun v => (v - mu) ^ 2) vs) / (N - 1)).

(** The present values of a sample in the words of the specification:
    the numbers of the records whose value is not missing. *)
Definition is_present (r : row) : bool :=
  match value r with
  | NaN => false
  | Num _ => true
  end.

Definition number_in (r : row) : R :=
  match value r with
  | NaN => 0
  | Num v => v
  end.

Definition present_values (sel : list row) : list R :=
  map number_in (filter is_present sel).

(** Every key of a mapping is read by the parser. *)
Definition all_parse (to_datetime : string -> result datetime) (data : series)
  : Prop :=
  forall k v, In (k, v) data -> exists d, to_datetime k = Return d.

(** Some key of a mapping is refused by the parser. *)
Definition some_fails (to_datetime : string -> result datetime) (data : series)
  : Prop :=
  exists k v, In (k, v) data /\ raises (to_datetime k).

(** The mapping that [build_dataframe] reads out of a response. *)
Definition data_of (json_resp : json_response) (parameter : string) : series :=
  get (get (get json_resp "properties" []) "parameter" []) parameter [].

Definition one_of_three (s : string) : Prop :=
  s = "increasing"%string \/ s = "decreasing"%string \/ s = "stable"%string.

(** ** Sample inputs *)

Definition jan15 (y : Z) (v : float64) : row := mkRow (Timestamp y 1 15) v.

Definition df_new_year : DataFrame :=
  mkFrame ["date"; "T2M"]%string [mkRow (Timestamp 2000 1 1) (Num 5)].

Definition single_year : list row := [jan15 2000 (Num 10)].

Definition data_bad_key : series :=
  [("20000101", Num 1); ("??", Num 2); ("20010101", Num 3)]%string.

Definition data_unordered : series :=
  [("20010101", Num 3); ("19990101", NaN); ("20000101", Num 1)]%string.

Definition rising : list row :=
  [jan15 2000 (Num 10); jan15 2001 (Num 12); jan15 2002 (Num 14);
   jan15 2003 (Num 16)].

Definition with_gap : DataFrame :=
  mkFrame ["date"; "T2M"]%string
          [jan15 2000 (Num 10); jan15 2001 NaN; jan15 2002 (Num 14);
           mkRow (Timestamp 2002 1 16) (Num 99)].

Definition two_values : list row := [jan15 2000 (Num 1); jan15 2001 (Num 3)].

Definition one_missing : list row :=
  [jan15 2000 (Num 1); jan15 2001 NaN; jan15 2002 (Num 3)].

Definition df_all_null : DataFrame :=
  mkFrame ["date"; "T2M"]%string [jan15 2000 NaN; jan15 2001 NaN].

Definition df_one_present : DataFrame :=
  mkFrame ["date"; "T2M"]%string [jan15 2000 (Num 10); jan15 2001 NaN].

(** ** Further vocabulary *)

(** A Timestamp names a day of the calendar, as every pandas Timestamp
    does. *)
Definition calendar_date (d : datetime) : Prop :=
  match d with
  | NaT => True
  | Timestamp y m dd =>
      (1 <= m <= 12 /\ 1 <= dd <= days_in_month (is_leap_year y) m)%Z
  end.

Definition calendar_frame (df : DataFrame) : Prop :=
  forall r, In r (rows df) -> calendar_date (date r).

(** The number in a cell that is known to hold one. *)
Definition number_of (c : float64) : R :=
  match c with
  | Num v => v
  | NaN => 0
  end.

Definition year_number (r : row) : R := number_of (year (date r)).
Definition value_number (r : row) : R := number_of (value r).

(** The last branch of [polyfit_slope], on columns without NaN. *)
Definition fit_numbers (xs ys : list R) : result float64 :=
  let n := INR (List.length xs) in
  let det := n * Rsquares xs - Rsum xs * Rsum xs in
  if Req_dec_T det 0
  then
    let X := hd 0 xs in
    if Req_dec_T X 0
    then Raise (LinAlgError "SVD did not converge in Linear Least Squares")
    else Return (Num ((Rsum ys / n) / (2 * X)))
  else Return (Num ((n * Rdot xs ys - Rsum xs * Rsum ys) / det)).

(** ** Request parameters of [fetch_power_point] *)

(** [f"{start_year}0101"] and [f"{end_year}1231"]: the decimal form of the
    year followed by month and day. *)
Definition power_start (start_year : Z) : string :=
  NilZero.string_of_int (Z.to_int start_year) ++ "0101".

Definition power_end (end_year : Z) : string :=
  NilZero.string_of_int (Z.to_int end_year) ++ "1231".

(** [year_start = 1991] *)
Definition year_start : Z := 1991.

(** The request parameters of a year read back as its first and last
    day. *)
Definition reads_as (k : string) (y m d : Z) : bool :=
  match to_datetime_compact k with
  | Return (Timestamp y' m' d') => ((y' =? y) && (m' =? m) && (d' =? d))%Z
  | _ => false
  end.

Definition year_round_trips (y : Z) : bool :=
  reads_as (power_start y) y 1 1 && reads_as (power_end y) y 12 31.

Definition four_digit_years : list Z :=
  map (fun k => (1000 + Z.of_nat k)%Z) (seq 0 (90 * 100)).

(** ** More sample inputs *)

Definition df_leap_days : DataFrame :=
  mkFrame ["date"; "T2M"]%string
          [mkRow (Timestamp 1999 12 31) (Num 1);
           mkRow (Timestamp 2000 12 31) (Num 2);
           mkRow (Timestamp 2001 3 1) (Num 3);
           mkRow (Timestamp 2004 2 29) (Num 4)].

Definition data_reordered : series :=
  [("20000101", Num 1); ("20010101", Num 3); ("19990101", NaN)]%string.

Definition df_same_day_twice : DataFrame :=
  mkFrame ["date"; "T2M"]%string
          [mkRow (Timestamp 2000 12 31) (Num 2);
           mkRow (Timestamp 2000 12 31) (Num 7);
           mkRow (Timestamp 2001 3 1) (Num 3)].

(** ** Lines 230-236 over IEEE binary64

    The value column of the day sample as a list of doubles, NaN for a
    missing value.  Sums are those of [np.add.reduce] on a contiguous
    array: the identity 0 plus numpy's pairwise sum, which adds fewer than
    eight numbers from left to right, up to 128 numbers in eight
    interleaved partial sums, and longer arrays in two halves.  This is
    the path of pandas' own reductions (without the optional bottleneck
    package). *)

Module Binary64.

Import PrimFloat.
#[local] Set Warnings "-inexact-float".
Local Open Scope float_scope.

(** The float64 value of a count. *)
Definition of_nat (n : nat) : float := of_uint63 (Uint63.of_Z (Z.of_nat n)).

(** [selected[var].dropna()] *)
Fixpoint dropna (col : list float) : list float :=
  match col with
  | [] => []
  | c :: rest => if is_nan c then dropna rest else c :: dropna rest
  end.

Definition values (col : list float) : list float := dropna col.

Definition add_lanes (r block : list float) : list float :=
  map (fun p => fst p + snd p) (combine r block).

(** The unrolled loop of numpy's pairwise sum: whole blocks of eight are
    added lane by lane; what is left over is returned. *)
Fixpoint unrolled_blocks (fuel : nat) (r rest : list float)
  : list float * list float :=
  match fuel with
  | O => (r, rest)
  | S fuel' =>
      if (8 <=? List.length rest)%nat
      then unrolled_blocks fuel' (add_lanes r (firstn 8 rest)) (skipn 8 rest)
      else (r, rest)
  end.

Definition join_lanes (r : list float) : float :=
  match r with
  | [r0; r1; r2; r3; r4; r5; r6; r7] =>
      ((r0 + r1) + (r2 + r3)) + ((r4 + r5) + (r6 + r7))
  | _ => nan
  end.

Fixpoint pairwise_sum (fuel : nat) (a : list float) : float :=
  let n := List.length a in
  if (n <? 8)%nat then fold_left add a 0
  else if (n <=? 128)%nat then
    let '(r, rest) := unrolled_blocks n (firstn 8 a) (skipn 8 a) in
    fold_left add rest (join_lanes r)
  else
    match fuel with
    | O => nan
    | S fuel' =>
        let n2 := (n / 2 - (n / 2) mod 8)%nat in
        pairwise_sum fuel' (firstn n2 a) + pairwise_sum fuel' (skipn n2 a)
    end.

(** [ndarray.sum()] *)
Definition sum (a : list float) : float := 0 + pairwise_sum (List.length a) a.

(** [Series.mean()] *)
Definition mean (vs : list float) : float :=
  match vs with
  | [] => nan
  | _ :: _ => sum vs / of_nat (List.length vs)
  end.

(** [Series.std(ddof)]: pandas' nanvar followed by a square root. *)
Definition std (ddof : nat) (vs : list float) : float :=
  if (List.length vs <=? ddof)%nat then nan
  else
    let count := of_nat (List.length vs) in
    let avg := sum vs / count in
    let sqr := map (fun v => (avg - v) * (avg - v)) vs in
    sqrt (sum sqr / (count - of_nat ddof)).

(** [values > t] *)
Definition gt_scalar (vs : list float) (t : float) : list bool :=
  map (fun v => t <? v) vs.

Definition count_true (bs : list bool) : nat :=
  List.length (filter (fun b => b) bs).

(** [.mean()] of a boolean series. *)
Definition mean_bool (bs : list bool) : float :=
  match bs with
  | [] => nan
  | _ :: _ => of_nat (count_true bs) / of_nat (List.length bs)
  end.

Definition mean_val (col : list float) : float := mean (values col).
Definition std_val (col : list float) : float := std 0 (values col).

(** [prob_extreme = (values > mean_val + 2 * std_val).mean()] *)
Definition prob_extreme (col : list float) : float :=
  mean_bool (gt_scalar (values col) (mean_val col + 2 * std_val col)).

(** In the words of the specification: the number of present values of
    the column, and the number of its values strictly above [t]. *)
Definition count_present (col : list float) : nat :=
  List.length (filter (fun c => c =? c) col).

Definition count_exceeding (t : float) (col : list float) : nat :=
  List.length (filter (fun c => t <? c) col).

(** Sample columns. *)
Definition one_above : list float := [30.8; 30.8; nan; 30.8; 30.8; 41.0].
Definition on_threshold : list float := [87.44; 87.44; 87.44; 87.44; 105.8].
Definition tiny_spread : list float := [0; 2.409919865102884e-181].

End Binary64.

(** * Properties *)

(** ** Comparisons *)

Lemma Rgtb_true_iff (a b : R) : Rgtb a b = true <-> a > b.
Proof.
  unfold Rgtb. destruct (Rlt_dec b a) as [Hlt | Hge]; split; intro H.
  - exact Hlt.
  - reflexivity.
  - discriminate H.
  - contradiction.
Qed.

Lemma Rgtb_false_iff (a b : R) : Rgtb a b = false <-> a <= b.
Proof.
  unfold Rgtb. destruct (Rlt_dec b a) as [Hlt | Hge]; split; intro H.
  - discriminate H.
  - lra.
  - lra.
  - reflexivity.
Qed.

Lemma Rltb'_true_iff (a b : R) : Rltb' a b = true <-> a < b.
Proof.
  unfold Rltb'. destruct (Rlt_dec a b) as [Hlt | Hge]; split; intro H.
  - exact Hlt.
  - reflexivity.
  - discriminate H.
  - contradiction.
Qed.

Lemma Rltb'_false_iff (a b : R) : Rltb' a b = false <-> b <= a.
Proof.
  unfold Rltb'. destruct (Rlt_dec a b) as [Hlt | Hge]; split; intro H.
  - discriminate H.
  - lra.
  - lra.
  - reflexivity.
Qed.

(** ** The date order *)

Lemma date_leb_total (a b : datetime) :
  date_leb a b = true \/ date_leb b a = true.
Proof.
  destruct a as [| y1 m1 d1], b as [| y2 m2 d2]; simpl; auto.
  destruct (Z.ltb_spec y1 y2), (Z.ltb_spec y2 y1),
           (Z.eqb_spec y1 y2), (Z.eqb_spec y2 y1),
           (Z.ltb_spec m1 m2), (Z.ltb_spec m2 m1),
           (Z.eqb_spec m1 m2), (Z.eqb_spec m2 m1),
           (Z.leb_spec d1 d2), (Z.leb_spec d2 d1); simpl; auto; lia.
Qed.

Lemma date_le_trans (a b c : datetime) :
  date_le a b -> date_le b c -> date_le a c.
Proof.
  unfold date_le.
  destruct a as [| y1 m1 d1], b as [| y2 m2 d2], c as [| y3 m3 d3];
    simpl; auto; try discriminate.
  intros H1 H2.
  destruct (Z.ltb_spec y1 y2), (Z.eqb_spec y1 y2),
           (Z.ltb_spec m1 m2), (Z.eqb_spec m1 m2),
           (Z.leb_spec d1 d2); simpl in H1; try discriminate H1;
  destruct (Z.ltb_spec y2 y3), (Z.eqb_spec y2 y3),
           (Z.ltb_spec m2 m3), (Z.eqb_spec m2 m3),
           (Z.leb_spec d2 d3); simpl in H2; try discriminate H2;
  destruct (Z.ltb_spec y1 y3), (Z.eqb_spec y1 y3),
           (Z.ltb_spec m1 m3), (Z.eqb_spec m1 m3),
           (Z.leb_spec d1 d3); simpl; auto; lia.
Qed.

(** ** Sorting *)

Lemma insert_by_date_perm (r : row) (rs : list row) :
  Permutation (r :: rs) (insert_by_date r rs).
Proof.
  induction rs as [| r' rest IH]; simpl.
  - apply Permutation_refl.
  - destruct (date_leb (date r) (date r')).
    + apply Permutation_refl.
    + eapply perm_trans; [apply perm_swap |].
      apply perm_skip. exact IH.
Qed.

Lemma sort_rows_perm (rs : list row) : Permutation rs (sort_rows rs).
Proof.
  induction rs as [| r rest IH]; simpl.
  - apply perm_nil.
  - eapply perm_trans; [apply perm_skip; exact IH |].
    apply insert_by_date_perm.
Qed.

Lemma insert_by_date_head (r : row) (rs : list row) (a : datetime) :
  date_le a (date r) ->
  HdRel date_le a (dates rs) ->
  HdRel date_le a (dates (insert_by_date r rs)).
Proof.
  intros Har Hrs. destruct rs as [| r' rest]; simpl.
  - constructor. exact Har.
  - destruct (date_leb (date r) (date r')); simpl.
    + constructor. exact Har.
    + constructor. inversion Hrs; assumption.
Qed.

Lemma insert_by_date_sorted (r : row) (rs : list row) :
  Sorted date_le (dates rs) -> Sorted date_le (dates (insert_by_date r rs)).
Proof.
  induction rs as [| r' rest IH]; simpl; intro Hs.
  - repeat constructor.
  - destruct (date_leb (date r) (date r')) eqn:Hcmp; simpl.
    + constructor; [exact Hs |]. constructor. exact Hcmp.
    + inversion Hs as [| ? ? Hrest Hhd]; subst.
      constructor.
      * apply IH. exact Hrest.
      * apply insert_by_date_head; [| exact Hhd].
        destruct (date_leb_total (date r) (date r')) as [H | H].
        -- rewrite H in Hcmp. discriminate Hcmp.
        -- exact H.
Qed.

Lemma sort_rows_sorted (rs : list row) : Sorted date_le (dates (sort_rows rs)).
Proof.
  induction rs as [| r rest IH]; simpl.
  - constructor.
  - apply insert_by_date_sorted. exact IH.
Qed.

Lemma sort_rows_strongly_sorted (rs : list row) :
  StronglySorted date_le (dates (sort_rows rs)).
Proof.
  apply Sorted_StronglySorted.
  - intros a b c. apply date_le_trans.
  - apply sort_rows_sorted.
Qed.

(** ** The normalizer *)

Section NormalizerFacts.

Variable to_datetime : string -> result datetime.

Lemma records_all_parse (data : series) :
  all_parse to_datetime data ->
  exists recs, records to_datetime data = Return recs
               /\ map value recs = map snd data.
Proof.
  induction data as [| [k v] rest IH]; intro Hall.
  - exists []. split; reflexivity.
  - destruct (Hall k v (or_introl eq_refl)) as [d Hd].
    destruct IH as [recs [Hrecs Hvals]].
    { intros k' v' Hin. apply (Hall k' v'). right. exact Hin. }
    exists (mkRow d v :: recs). simpl. rewrite Hd. simpl. rewrite Hrecs. simpl.
    split; [reflexivity | now rewrite Hvals].
Qed.

Lemma records_some_fails (data : series) :
  some_fails to_datetime data -> raises (records to_datetime data).
Proof.
  induction data as [| [k v] rest IH]; intros [k0 [v0 [Hin Hraise]]].
  - contradiction.
  - simpl. destruct (to_datetime k) as [d | e] eqn:Hk.
    + simpl. destruct Hin as [Heq | Hin].
      * inversion Heq; subst. destruct Hraise as [e He].
        rewrite Hk in He. discriminate He.
      * destruct IH as [e He].
        { exists k0, v0. split; assumption. }
        rewrite He. exists e. reflexivity.
    + exists e. reflexivity.
Qed.

Lemma build_dataframe_unfold (json_resp : json_response) (parameter : string) :
  build_dataframe to_datetime json_resp parameter =
  (recs <- records to_datetime (data_of json_resp parameter) ;;
   df <- sort_values "date" (pd_DataFrame parameter recs) ;;
   Return (reset_index df)).
Proof. reflexivity. Qed.

Lemma build_dataframe_rows (json_resp : json_response) (parameter : string)
      (df : DataFrame) :
  build_dataframe to_datetime json_resp parameter = Return df ->
  exists recs, records to_datetime (data_of json_resp parameter) = Return recs
               /\ recs <> []
               /\ df = mkFrame ["date"%string; parameter] (sort_rows recs).
Proof.
  rewrite build_dataframe_unfold.
  destruct (records to_datetime (data_of json_resp parameter))
    as [recs | e]; simpl; [| discriminate].
  destruct recs as [| r rest]; simpl; [discriminate |].
  intro H. inversion H. exists (r :: rest).
  split; [reflexivity | split; [discriminate | reflexivity]].
Qed.

Lemma build_dataframe_returns (json_resp : json_response) (parameter : string) :
  all_parse to_datetime (data_of json_resp parameter) ->
  data_of json_resp parameter <> [] ->
  exists recs,
    records to_datetime (data_of json_resp parameter) = Return recs
    /\ map value recs = map snd (data_of json_resp parameter)
    /\ build_dataframe to_datetime json_resp parameter
       = Return (mkFrame ["date"%string; parameter] (sort_rows recs)).
Proof.
  intros Hall Hne.
  destruct (records_all_parse _ Hall) as [recs [Hrecs Hvals]].
  exists recs. split; [exact Hrecs | split; [exact Hvals |]].
  rewrite build_dataframe_unfold, Hrecs. simpl.
  destruct recs as [| r rest].
  - destruct (data_of json_resp parameter); [congruence | discriminate Hvals].
  - reflexivity.
Qed.

End NormalizerFacts.

Lemma data_of_response_of (parameter : string) (data : series) :
  data_of (response_of parameter data) parameter = data.
Proof.
  unfold data_of, response_of. simpl. rewrite String.eqb_refl. reflexivity.
Qed.

(** C3, as the code has it: one key that [pd.to_datetime] refuses makes
    the whole of [build_dataframe] raise, so no frame is returned at all;
    and when every key of a non-empty mapping is read, the frame holds one
    row per entry, the missing values (NaN) among them: nothing is
    dropped. *)
Theorem C3_bad_key_aborts_and_nothing_is_dropped :
  forall (to_datetime : string -> result datetime)
         (json_resp : json_response) (parameter : string),
    (some_fails to_datetime (data_of json_resp parameter) ->
     raises (build_dataframe to_datetime json_resp parameter))
    /\ (all_parse to_datetime (data_of json_resp parameter) ->
        data_of json_resp parameter <> [] ->
        exists df,
          build_dataframe to_datetime json_resp parameter = Return df
          /\ Permutation (map snd (data_of json_resp parameter))
                         (map value (rows df))).
Proof.
  intros to_datetime json_resp parameter. split.
  - intro Hfail. rewrite build_dataframe_unfold.
    destruct (records_some_fails to_datetime _ Hfail) as [e He].
    rewrite He. exists e. reflexivity.
  - intros Hall Hne.
    destruct (build_dataframe_returns to_datetime _ _ Hall Hne)
      as [recs [_ [Hvals Hbuild]]].
    eexists. split; [exact Hbuild |]. simpl.
    rewrite <- Hvals. apply Permutation_map. apply sort_rows_perm.
Qed.

Lemma C3_witness :
  raises (build_dataframe to_datetime_compact
                          (response_of "T2M" data_bad_key) "T2M")
  /\ exists df,
      build_dataframe to_datetime_compact
                      (response_of "T2M" data_unordered) "T2M" = Return df
      /\ Permutation (map snd (data_of (response_of "T2M" data_unordered) "T2M"))
                     (map value (rows df)).
Proof.
  split.
  - apply (proj1 (C3_bad_key_aborts_and_nothing_is_dropped
                    to_datetime_compact (response_of "T2M" data_bad_key) "T2M")).
    exists "??"%string, (Num 2). split.
    + right. left. reflexivity.
    + exists (DateParseError "??"). reflexivity.
  - apply (proj2 (C3_bad_key_aborts_and_nothing_is_dropped
                    to_datetime_compact (response_of "T2M" data_unordered) "T2M")).
    + intros k v Hin. simpl in Hin.
      destruct Hin as [H | [H | [H | []]]]; inversion H; subst;
        eexists; reflexivity.
    + discriminate.
Defined.

(** C3 fails as stated: with the key "??" among three entries the
    normalizer raises instead of returning the two readable records. *)
Lemma C3_counterexample :
  build_dataframe to_datetime_compact (response_of "T2M" data_bad_key) "T2M"
  = Raise (DateParseError "??").
Proof. reflexivity. Qed.

(** C4: on an empty mapping [build_dataframe] raises KeyError("date"),
    whether the mapping arrives empty or the response lacks it and the
    [{}] defaults of the [.get] chain supply it. *)
Theorem C4_empty_mapping_raises_KeyError :
  forall (to_datetime : string -> result datetime) (parameter : string),
    build_dataframe to_datetime (response_of parameter []) parameter
    = Raise (KeyError "date")
    /\ build_dataframe to_datetime [] parameter = Raise (KeyError "date").
Proof.
  intros to_datetime parameter. split.
  - rewrite build_dataframe_unfold, data_of_response_of. reflexivity.
  - reflexivity.
Qed.

(** C7: whatever the order of the entries, a frame returned by
    [build_dataframe] has its "date" column in non-decreasing order (NaT,
    which is no date, comes last); and a frame is returned whenever the
    mapping is non-empty and all its keys are read. *)
Theorem C7_output_sorted_by_date :
  forall (to_datetime : string -> result datetime)
         (json_resp : json_response) (parameter : string),
    (forall df,
        build_dataframe to_datetime json_resp parameter = Return df ->
        StronglySorted date_le (dates (rows df)))
    /\ (all_parse to_datetime (data_of json_resp parameter) ->
        data_of json_resp parameter <> [] ->
        exists df,
          build_dataframe to_datetime json_resp parameter = Return df).
Proof.
  intros to_datetime json_resp parameter. split.
  - intros df Hbuild.
    destruct (build_dataframe_rows to_datetime _ _ _ Hbuild)
      as [recs [_ [_ Hdf]]].
    subst df. simpl. apply sort_rows_strongly_sorted.
  - intros Hall Hne.
    destruct (build_dataframe_returns to_datetime _ _ Hall Hne)
      as [recs [_ [_ Hbuild]]].
    eexists. exact Hbuild.
Qed.

Lemma C7_witness :
  exists df,
    build_dataframe to_datetime_compact
                    (response_of "T2M" data_unordered) "T2M" = Return df
    /\ dates (rows df)
       = [Timestamp 1999 1 1; Timestamp 2000 1 1; Timestamp 2001 1 1]
    /\ StronglySorted date_le (dates (rows df)).
Proof.
  eexists. split; [reflexivity |]. split; [reflexivity |].
  apply (proj1 (C7_output_sorted_by_date
                  to_datetime_compact (response_of "T2M" data_unordered) "T2M")).
  reflexivity.
Defined.

(** ** The selector *)

Lemma selected_nil (df : DataFrame) (D : Z) :
  no_record_on df D -> selected df D = [].
Proof.
  unfold no_record_on, selected. induction (rows df) as [| r rest IH]; intro H.
  - reflexivity.
  - simpl. rewrite (H r (or_introl eq_refl)). apply IH.
    intros r' Hin. apply H. right. exact Hin.
Qed.

Lemma selected_has_date (df : DataFrame) (D : Z) (r : row) :
  In r (selected df D) -> exists y m d, date r = Timestamp y m d.
Proof.
  unfold selected. rewrite filter_In. intros [_ Hdoy].
  unfold doy_is in Hdoy. destruct (date r) as [| y m d].
  - discriminate Hdoy.
  - exists y, m, d. reflexivity.
Qed.

Lemma selected_day_of_year (df : DataFrame) (D : Z) (r : row) :
  In r (selected df D) -> dayofyear (date r) = Some D.
Proof.
  unfold selected. rewrite filter_In. intros [_ Hdoy].
  unfold doy_is in Hdoy. destruct (dayofyear (date r)) as [n |].
  - apply Z.eqb_eq in Hdoy. now subst.
  - discriminate Hdoy.
Qed.

(** ** The fit *)

Ltac decide_reals :=
  repeat match goal with
         | |- context [Req_dec_T ?a ?b] => destruct (Req_dec_T a b); try lra
         | |- context [Rlt_dec ?a ?b] => destruct (Rlt_dec a b); try lra
         end.

Lemma trend_text_cases (s : float64) : one_of_three (trend_text s).
Proof.
  unfold one_of_three, trend_text.
  destruct (fgt s (Num 0)); [now left |].
  destruct (flt s (Num 0)); [right; now left | right; now right].
Qed.

Lemma years_not_na (sel : list row) :
  (forall r, In r sel -> has_timestamp r) ->
  existsb isna (map (fun r => year (date r)) sel) = false.
Proof.
  induction sel as [| r rest IH]; intro H; simpl.
  - reflexivity.
  - destruct (H r (or_introl eq_refl)) as [y [m [d Hd]]]. rewrite Hd. simpl.
    apply IH. intros r' Hin. apply H. right. exact Hin.
Qed.

Lemma values_na_iff (sel : list row) :
  existsb isna (map value sel) = true <-> exists r, In r sel /\ value r = NaN.
Proof.
  rewrite existsb_exists. split.
  - intros [c [Hin Hna]]. apply in_map_iff in Hin. destruct Hin as [r [Hr Hin]].
    exists r. split; [exact Hin |]. subst c. destruct (value r); [reflexivity | discriminate].
  - intros [r [Hin Hna]]. exists (value r). split.
    + apply in_map. exact Hin.
    + rewrite Hna. reflexivity.
Qed.

Lemma values_not_na (sel : list row) :
  (forall r, In r sel -> value r <> NaN) -> existsb isna (map value sel) = false.
Proof.
  intro H. destruct (existsb isna (map value sel)) eqn:E; [| reflexivity].
  apply values_na_iff in E. destruct E as [r [Hin Hna]].
  exfalso. exact (H r Hin Hna).
Qed.

(** A missing value anywhere in a sample of dated rows gives a NaN slope. *)
Lemma slope_with_missing (sel : list row) :
  (forall r, In r sel -> has_timestamp r) ->
  (exists r, In r sel /\ value r = NaN) ->
  slope sel = Return NaN.
Proof.
  intros Hdates Hmiss. unfold slope, polyfit_slope.
  destruct sel as [| r0 rest].
  - destruct Hmiss as [r [[] _]].
  - remember (r0 :: rest) as sel eqn:Hsel.
    assert (Hx : map (fun r => year (date r)) sel
                 = year (date r0) :: map (fun r => year (date r)) rest)
      by (subst sel; reflexivity).
    rewrite Hx at 1. rewrite !length_map, Nat.eqb_refl. simpl negb. cbv iota.
    rewrite (years_not_na sel Hdates).
    apply values_na_iff in Hmiss. rewrite Hmiss. reflexivity.
Qed.

Lemma Rsum_const (c : R) (l : list R) :
  (forall x, In x l -> x = c) -> Rsum l = INR (List.length l) * c.
Proof.
  induction l as [| a rest IH]; intro H.
  - simpl. ring.
  - change (Rsum (a :: rest)) with (a + Rsum rest).
    rewrite IH by (intros x Hx; apply H; right; exact Hx).
    change (List.length (a :: rest)) with (S (List.length rest)).
    rewrite S_INR, (H a (or_introl eq_refl)). ring.
Qed.

Lemma Rsquares_const (c : R) (l : list R) :
  (forall x, In x l -> x = c) -> Rsquares l = INR (List.length l) * (c * c).
Proof.
  intro H. unfold Rsquares.
  rewrite (Rsum_const (c * c)).
  - now rewrite length_map.
  - intros x Hx. apply in_map_iff in Hx. destruct Hx as [a [Ha Hin]].
    rewrite (H a Hin) in Ha. now subst.
Qed.

Lemma nodup_short_all_equal (l : list Z) (a b : Z) :
  (List.length (nodup Z.eq_dec l) < 2)%nat -> In a l -> In b l -> a = b.
Proof.
  intros Hlen Ha Hb. destruct (Z.eq_dec a b) as [Heq | Hneq]; [exact Heq |].
  exfalso.
  assert (Hnd : NoDup [a; b]).
  { constructor; [| constructor; [intros [] | constructor]].
    intros [H | []]. apply Hneq. now symmetry. }
  assert (Hincl : incl [a; b] (nodup Z.eq_dec l)).
  { intros x [Hx | [Hx | []]]; subst x; now apply nodup_In. }
  pose proof (NoDup_incl_length Hnd Hincl) as Hle. simpl in Hle. lia.
Qed.

(** Dated rows without missing values: the abscissae handed to the fit are
    the present years, the ordinates are [values]. *)
Lemma complete_sample_columns (sel : list row) :
  (forall r, In r sel -> has_timestamp r) ->
  (forall r, In r sel -> value r <> NaN) ->
  dropna (map (fun r => year (date r)) sel) = map IZR (present_years sel)
  /\ List.length (present_years sel) = List.length sel.
Proof.
  induction sel as [| r rest IH]; intros Hd Hv.
  - split; reflexivity.
  - destruct IH as [IHx IHn].
    { intros r' Hin. apply Hd. right. exact Hin. }
    { intros r' Hin. apply Hv. right. exact Hin. }
    destruct (Hd r (or_introl eq_refl)) as [y [m [d Hdate]]].
    pose proof (Hv r (or_introl eq_refl)) as Hval.
    simpl. rewrite Hdate. destruct (value r) as [| v]; [congruence |].
    simpl. rewrite IHx, IHn. split; reflexivity.
Qed.

(** All rows dated in the one non-zero year [Y] and no value missing: the
    fit is rank deficient and numpy's minimum-norm slope comes out. *)
Lemma slope_single_year (sel : list row) (Y : Z) :
  sel <> [] ->
  (forall r, In r sel -> has_timestamp r) ->
  (forall r, In r sel -> value r <> NaN) ->
  (distinct_years sel < 2)%nat ->
  In Y (present_years sel) ->
  Y <> 0%Z ->
  slope sel
  = Return (Num ((Rsum (values sel) / INR (List.length sel)) / (2 * IZR Y))).
Proof.
  intros Hne Hd Hv Hdist HY HY0.
  destruct (complete_sample_columns sel Hd Hv) as [Hxs Hlen].
  assert (Hall : forall x, In x (map IZR (present_years sel)) -> x = IZR Y).
  { intros x Hx. apply in_map_iff in Hx. destruct Hx as [y [Hy Hin]].
    subst x. f_equal. exact (nodup_short_all_equal _ y Y Hdist Hin HY). }
  unfold slope, polyfit_slope.
  destruct sel as [| r0 rest]; [congruence |].
  remember (r0 :: rest) as sel eqn:Hsel.
  assert (Hx : map (fun r => year (date r)) sel
               = year (date r0) :: map (fun r => year (date r)) rest)
    by (subst sel; reflexivity).
  rewrite Hx at 1. rewrite !length_map, Nat.eqb_refl. simpl negb. cbv iota.
  rewrite (years_not_na sel Hd), (values_not_na sel Hv).
  rewrite Hxs. cbv zeta.
  rewrite (Rsum_const (IZR Y) _ Hall), (Rsquares_const (IZR Y) _ Hall).
  rewrite length_map, Hlen.
  assert (Hhd : hd 0 (map IZR (present_years sel)) = IZR Y).
  { destruct (present_years sel) as [| y ys] eqn:Hp; [destruct HY |].
    apply Hall. left. reflexivity. }
  rewrite Hhd.
  assert (HY0' : IZR Y <> 0) by (intro H; apply eq_IZR_R0 in H; contradiction).
  destruct (Req_dec_T _ 0) as [_ | Hdet].
  - destruct (Req_dec_T (IZR Y) 0) as [H | _]; [contradiction |].
    reflexivity.
  - exfalso. apply Hdet. ring.
Qed.

(** ** Statistics see present values only *)

Lemma values_filter_present (sel : list row) :
  values (filter (fun r => negb (isna (value r))) sel) = values sel.
Proof.
  unfold values. induction sel as [| r rest IH]; simpl.
  - reflexivity.
  - destruct (value r) as [| v] eqn:Hv; simpl.
    + exact IH.
    + rewrite Hv. simpl. now rewrite IH.
Qed.

Lemma statistics_by_values (sel sel' : list row) :
  values sel = values sel' -> statistics sel = statistics sel'.
Proof.
  intro H. unfold statistics, prob_extreme, mean_val, std_val, max_val, min_val.
  now rewrite H.
Qed.

(** ** No-data path *)

(** C1, as the code has it: when no record falls on the chosen day, the
    five statistics are NaN and the fit raises a TypeError (numpy refuses
    an empty vector), so the run ends in an exception: no "no data" or
    "insufficient data" result is returned. *)
Theorem C1_no_record_stats_nan_fit_raises :
  forall (df : DataFrame) (D : Z),
    no_record_on df D ->
    statistics (selected df D) = mkStatistics NaN NaN NaN NaN NaN
    /\ analysis df D = Raise (TypeError "expected non-empty vector for x").
Proof.
  intros df D Hnone. unfold analysis.
  rewrite (selected_nil df D Hnone). split; reflexivity.
Qed.

Lemma df_new_year_not_on_day_2 : no_record_on df_new_year 2.
Proof.
  intros r Hin. simpl in Hin. destruct Hin as [H | []]. subst r. reflexivity.
Qed.

Lemma C1_witness :
  statistics (selected df_new_year 2) = mkStatistics NaN NaN NaN NaN NaN
  /\ analysis df_new_year 2 = Raise (TypeError "expected non-empty vector for x").
Proof.
  apply (C1_no_record_stats_nan_fit_raises df_new_year 2).
  intros r Hin. simpl in Hin. destruct Hin as [H | []]. subst r. reflexivity.
Defined.

(** C1 fails as stated: a frame whose only record is 1 January has no
    record on day 2, and the analysis of day 2 raises. *)
Lemma C1_counterexample :
  no_record_on df_new_year 2 /\ raises (analysis df_new_year 2).
Proof.
  split.
  - exact df_new_year_not_on_day_2.
  - exists (TypeError "expected non-empty vector for x"). reflexivity.
Qed.

(** ** Fewer than two years *)

Lemma object_column_false (df : DataFrame) (r : row) :
  In r (rows df) -> value r <> NaN -> object_column df = false.
Proof.
  intros Hin Hv. unfold object_column.
  destruct (forallb isna (map value (rows df))) eqn:E; [| reflexivity].
  rewrite forallb_forall in E.
  specialize (E (value r) (in_map value _ _ Hin)).
  destruct (value r); [congruence | discriminate E].
Qed.

Lemma selected_in_rows (df : DataFrame) (D : Z) (r : row) :
  In r (selected df D) -> In r (rows df).
Proof. unfold selected. rewrite filter_In. tauto. Qed.

Lemma analysis_empty (df : DataFrame) (D : Z) :
  selected df D = [] ->
  analysis df D = Raise (TypeError "expected non-empty vector for x").
Proof. intro Hnil. unfold analysis. rewrite Hnil. reflexivity. Qed.

Lemma analysis_object_column (df : DataFrame) (D : Z) :
  selected df D <> [] ->
  object_column df = true ->
  analysis df D
  = Raise (TypeError
             "unsupported operand type(s) for +: 'NoneType' and 'float'").
Proof.
  intros Hne Hobj. unfold analysis, polyfit_on.
  destruct (selected df D) as [| r rest]; [congruence |].
  rewrite Hobj. reflexivity.
Qed.

Lemma analysis_float_column (df : DataFrame) (D : Z) (s : float64) :
  object_column df = false ->
  slope (selected df D) = Return s ->
  analysis df D
  = Return (mkAnalysis (selected df D) (statistics (selected df D)) s
                       (trend_text s)
                       (volatility_label (prob_extreme (selected df D)))).
Proof.
  intros Hobj Hs. unfold analysis, polyfit_on.
  destruct (selected df D) as [| r rest] eqn:Hsel.
  - rewrite Hs. reflexivity.
  - rewrite Hobj, Hs. reflexivity.
Qed.

Lemma trend_text_by_sign (s : R) :
  (0 < s -> trend_text (Num s) = "increasing"%string)
  /\ (s < 0 -> trend_text (Num s) = "decreasing"%string)
  /\ (s = 0 -> trend_text (Num s) = "stable"%string).
Proof.
  unfold trend_text, fgt, flt, Rgtb, Rltb'.
  destruct (Rlt_dec 0 s) as [Hpos | Hnpos], (Rlt_dec s 0) as [Hneg | Hnneg];
    repeat split; intros; try reflexivity; lra.
Qed.

(** C2, as the code has it: the estimator has no "insufficient data"
    outcome and always calls the fit.  For a day sample whose present
    values span fewer than two distinct years: an empty sample makes the
    fit raise (empty vector); when every value of the mapping is null the
    value column holds None and the fit raises a TypeError as well; in a
    float column, a sample with a missing value gets slope NaN and the
    label "stable"; and a sample without missing values, all of one
    non-zero year Y, gets numpy's minimum-norm slope mean / (2 Y) and is
    labelled by the sign of that slope. *)
Theorem C2_fit_is_always_attempted :
  forall (df : DataFrame) (D : Z),
    (distinct_years (selected df D) < 2)%nat ->
    (selected df D = [] ->
     analysis df D = Raise (TypeError "expected non-empty vector for x"))
    /\ (selected df D <> [] ->
        object_column df = true ->
        analysis df D
        = Raise (TypeError
                   "unsupported operand type(s) for +: 'NoneType' and 'float'"))
    /\ (object_column df = false ->
        (exists r, In r (selected df D) /\ value r = NaN) ->
        exists a, analysis df D = Return a
                  /\ an_slope a = NaN
                  /\ an_trend_text a = "stable"%string)
    /\ (forall Y,
           (forall r, In r (selected df D) -> value r <> NaN) ->
           In Y (present_years (selected df D)) ->
           Y <> 0%Z ->
           exists a s,
             analysis df D = Return a
             /\ s = (Rsum (values (selected df D))
                     / INR (List.length (selected df D)))
                    / (2 * IZR Y)
             /\ an_slope a = Num s
             /\ (0 < s -> an_trend_text a = "increasing"%string)
             /\ (s < 0 -> an_trend_text a = "decreasing"%string)
             /\ (s = 0 -> an_trend_text a = "stable"%string)).
Proof.
  intros df D Hdist. split; [| split; [| split]].
  - apply analysis_empty.
  - apply analysis_object_column.
  - intros Hobj Hmiss.
    assert (Hslope : slope (selected df D) = Return NaN).
    { apply slope_with_missing; [| exact Hmiss].
      intros r Hin. exact (selected_has_date df D r Hin). }
    rewrite (analysis_float_column df D NaN Hobj Hslope).
    eexists. split; [reflexivity |]. split; reflexivity.
  - intros Y Hv HY HY0.
    assert (Hne : selected df D <> []).
    { intro Hnil. rewrite Hnil in HY. destruct HY. }
    assert (Hobj : object_column df = false).
    { destruct (selected df D) as [| r rest] eqn:Hsel; [congruence |].
      apply (object_column_false df r).
      - apply (selected_in_rows df D). rewrite Hsel. now left.
      - apply Hv. now left. }
    pose proof (slope_single_year (selected df D) Y Hne
                  (fun r Hin => selected_has_date df D r Hin)
                  Hv Hdist HY HY0) as Hslope.
    rewrite (analysis_float_column df D _ Hobj Hslope).
    eexists. eexists. split; [reflexivity |]. split; [reflexivity |].
    split; [reflexivity |]. simpl an_trend_text. apply trend_text_by_sign.
Qed.

Lemma C2_witness :
  (exists a s,
      analysis df_new_year 1 = Return a
      /\ s = (Rsum (values (selected df_new_year 1))
              / INR (List.length (selected df_new_year 1)))
             / (2 * IZR 2000)
      /\ an_slope a = Num s
      /\ (0 < s -> an_trend_text a = "increasing"%string)
      /\ (s < 0 -> an_trend_text a = "decreasing"%string)
      /\ (s = 0 -> an_trend_text a = "stable"%string))
  /\ analysis df_new_year 2
     = Raise (TypeError "expected non-empty vector for x")
  /\ analysis df_all_null 15
     = Raise (TypeError
                "unsupported operand type(s) for +: 'NoneType' and 'float'")
  /\ (exists a, analysis df_one_present 15 = Return a
                /\ an_slope a = NaN
                /\ an_trend_text a = "stable"%string).
Proof.
  split; [| split; [| split]].
  - assert (Hdist : (distinct_years (selected df_new_year 1) < 2)%nat)
      by (cbn; lia).
    destruct (C2_fit_is_always_attempted df_new_year 1 Hdist)
      as [_ [_ [_ Hone]]].
    apply (Hone 2000%Z).
    + intros r Hin. cbn in Hin. destruct Hin as [H | []]. subst r. discriminate.
    + cbn. left. reflexivity.
    + discriminate.
  - assert (Hdist : (distinct_years (selected df_new_year 2) < 2)%nat)
      by (cbn; lia).
    apply (proj1 (C2_fit_is_always_attempted df_new_year 2 Hdist)).
    reflexivity.
  - assert (Hdist : (distinct_years (selected df_all_null 15) < 2)%nat)
      by (cbn; lia).
    apply (proj1 (proj2 (C2_fit_is_always_attempted df_all_null 15 Hdist))).
    + discriminate.
    + reflexivity.
  - assert (Hdist : (distinct_years (selected df_one_present 15) < 2)%nat)
      by (cbn; lia).
    apply (proj1 (proj2 (proj2
             (C2_fit_is_always_attempted df_one_present 15 Hdist)))).
    + reflexivity.
    + exists (jan15 2001 NaN). split; [| reflexivity].
      cbn. right. left. reflexivity.
Defined.

(** C2 fails as stated: one record, in the year 2000 with value 10, spans
    one year; the fit is made, returns a positive slope, and the trend is
    reported as "increasing". *)
Lemma C2_counterexample :
  distinct_years single_year = 1%nat
  /\ exists s, slope single_year = Return (Num s)
               /\ s > 0
               /\ trend_text (Num s) = "increasing"%string.
Proof.
  split; [reflexivity |].
  exists (10 / 4000). repeat split.
  - unfold slope, polyfit_slope, single_year, jan15, Rsquares, Rsum. simpl.
    decide_reals. do 2 f_equal. field.
  - lra.
  - unfold trend_text, fgt, Rgtb. decide_reals. reflexivity.
Qed.

(** ** Missing values and the fit *)

(** C10, as the code has it: the statistics are those of the present
    values alone (rows with a missing value do not change them), while the
    fit takes the whole column.  In a float column, that is when the
    mapping holds at least one number, one missing value in the day sample
    makes the slope NaN, both sign tests are False and the run reports the
    trend "stable"; when every value of the mapping is null, the column
    holds None and the fit raises a TypeError. *)
Theorem C10_missing_value_nan_slope_stable :
  forall (df : DataFrame) (D : Z),
    (exists r, In r (selected df D) /\ value r = NaN) ->
    statistics (selected df D)
    = statistics (filter (fun r => negb (isna (value r))) (selected df D))
    /\ (object_column df = false ->
        slope (selected df D) = Return NaN
        /\ fgt NaN (Num 0) = false
        /\ flt NaN (Num 0) = false
        /\ exists a, analysis df D = Return a
                     /\ an_slope a = NaN
                     /\ an_trend_text a = "stable"%string)
    /\ (object_column df = true ->
        analysis df D
        = Raise (TypeError
                   "unsupported operand type(s) for +: 'NoneType' and 'float'")).
Proof.
  intros df D Hmiss. split; [| split].
  - apply statistics_by_values. symmetry. apply values_filter_present.
  - intro Hobj.
    assert (Hslope : slope (selected df D) = Return NaN).
    { apply slope_with_missing; [| exact Hmiss].
      intros r Hin. exact (selected_has_date df D r Hin). }
    split; [exact Hslope |]. split; [reflexivity |]. split; [reflexivity |].
    rewrite (analysis_float_column df D NaN Hobj Hslope).
    eexists. split; [reflexivity |]. split; reflexivity.
  - apply analysis_object_column.
    destruct Hmiss as [r [Hin _]]. intro Hnil. rewrite Hnil in Hin.
    destruct Hin.
Qed.

Lemma C10_witness :
  (slope (selected with_gap 15) = Return NaN
   /\ fgt NaN (Num 0) = false
   /\ flt NaN (Num 0) = false
   /\ exists a, analysis with_gap 15 = Return a
                /\ an_slope a = NaN
                /\ an_trend_text a = "stable"%string)
  /\ mean_val (selected with_gap 15) = Num ((10 + (14 + 0)) / (1 + 1))
  /\ analysis df_all_null 15
     = Raise (TypeError
                "unsupported operand type(s) for +: 'NoneType' and 'float'").
Proof.
  split; [| split].
  - apply (C10_missing_value_nan_slope_stable with_gap 15).
    + exists (jan15 2001 NaN). split; [| reflexivity].
      cbn. right. left. reflexivity.
    + reflexivity.
  - reflexivity.
  - apply (C10_missing_value_nan_slope_stable df_all_null 15).
    + exists (jan15 2000 NaN). split; [| reflexivity].
      cbn. left. reflexivity.
    + reflexivity.
Defined.

(** C10 fails as stated: when both values of the mapping are null, the
    day sample holds missing values, yet no slope is computed and no trend
    reported: the fit raises a TypeError. *)
Lemma C10_counterexample :
  (exists r, In r (selected df_all_null 15) /\ value r = NaN)
  /\ analysis df_all_null 15
     = Raise (TypeError
                "unsupported operand type(s) for +: 'NoneType' and 'float'").
Proof.
  split.
  - exists (jan15 2000 NaN). split; [| reflexivity]. cbn. left. reflexivity.
  - reflexivity.
Qed.

(** ** Labels *)

(** C8, as the code has it: a slope above zero is labelled "increasing",
    one below zero "decreasing", and every other slope "stable": that is
    the slope equal to zero and also the slope NaN, for which both tests
    are False.  The values 10, 12, 14, 16 over the years 2000 to 2003 give
    a positive slope and "increasing". *)
Theorem C8_trend_classification :
  (forall s : R,
      (s > 0 -> trend_text (Num s) = "increasing"%string)
      /\ (s < 0 -> trend_text (Num s) = "decreasing"%string)
      /\ (s = 0 -> trend_text (Num s) = "stable"%string))
  /\ (forall c : float64,
         trend_text c = "stable"%string <-> (c = NaN \/ c = Num 0))
  /\ (exists s, slope rising = Return (Num s)
                /\ s > 0
                /\ trend_text (Num s) = "increasing"%string).
Proof.
  split; [| split].
  - intro s. unfold trend_text, fgt, flt, Rgtb, Rltb'.
    destruct (Rlt_dec 0 s) as [Hpos | Hnpos], (Rlt_dec s 0) as [Hneg | Hnneg];
      repeat split; intros; try reflexivity; try discriminate; lra.
  - intros [| s].
    + split; [intros _; now left | intros _; reflexivity].
    + unfold trend_text, fgt, flt, Rgtb, Rltb'.
      destruct (Rlt_dec 0 s) as [Hpos | Hnpos], (Rlt_dec s 0) as [Hneg | Hnneg];
        split; intro H; try discriminate H; try reflexivity.
      * destruct H as [H | H]; [discriminate H | inversion H; lra].
      * destruct H as [H | H]; [discriminate H | inversion H; lra].
      * destruct H as [H | H]; [discriminate H | inversion H; lra].
      * right. f_equal. lra.
  - exists 2. split; [| split].
    + unfold slope, polyfit_slope, rising, jan15, Rsquares, Rdot, Rsum. simpl.
      decide_reals. do 2 f_equal. field.
    + lra.
    + unfold trend_text, fgt, Rgtb. decide_reals. reflexivity.
Qed.

Lemma C8_witness :
  trend_text (Num 2) = "increasing"%string
  /\ trend_text (Num (-3)) = "decreasing"%string
  /\ trend_text (Num 0) = "stable"%string
  /\ trend_text NaN = "stable"%string.
Proof.
  destruct C8_trend_classification as [Hclass [Hstable _]].
  split; [| split; [| split]].
  - apply (proj1 (Hclass 2)). lra.
  - apply (proj1 (proj2 (Hclass (-3)))). lra.
  - apply (proj2 (proj2 (Hclass 0))). reflexivity.
  - apply (proj2 (Hstable NaN)). left. reflexivity.
Defined.

(** C8 fails as stated: the day sample of with_gap has a missing value,
    its fitted slope is NaN, which is not equal to 0, and the trend is
    reported as "stable" all the same. *)
Lemma C8_counterexample :
  slope (selected with_gap 15) = Return NaN
  /\ NaN <> Num 0
  /\ fgt NaN (Num 0) = false
  /\ flt NaN (Num 0) = false
  /\ trend_text NaN = "stable"%string.
Proof.
  split; [reflexivity |]. split; [discriminate |].
  split; [reflexivity |]. split; reflexivity.
Qed.

(** C9: for a defined exceedance frequency p the label is "more volatile"
    exactly when p > 0.15 and "generally stable" otherwise; 0.15 itself is
    "generally stable". *)
Theorem C9_volatility_threshold :
  (forall p : R,
      (volatility_label (Num p) = "more volatile"%string <-> p > 15 / 100)
      /\ (volatility_label (Num p) = "generally stable"%string <-> p <= 15 / 100))
  /\ volatility_label (Num (15 / 100)) = "generally stable"%string.
Proof.
  split.
  - intro p. unfold volatility_label, fgt, Rgtb.
    destruct (Rlt_dec (15 / 100) p) as [Hlt | Hge];
      repeat split; intros; try reflexivity; try discriminate; lra.
  - unfold volatility_label, fgt, Rgtb. decide_reals. reflexivity.
Qed.

Lemma C9_witness :
  volatility_label (Num (1 / 5)) = "more volatile"%string
  /\ volatility_label (Num (1 / 30)) = "generally stable"%string.
Proof.
  destruct C9_volatility_threshold as [Hlabel _]. split.
  - apply (proj1 (Hlabel (1 / 5))). lra.
  - apply (proj2 (Hlabel (1 / 30))). lra.
Defined.

(** ** Spread *)

Lemma length_pos (vs : list R) : vs <> [] -> 0 < INR (List.length vs).
Proof.
  intro Hne. destruct vs as [| v rest]; [congruence |].
  apply lt_0_INR. simpl. lia.
Qed.

Lemma mean_nonempty (vs : list R) :
  vs <> [] -> mean vs = Num (Rsum vs / INR (List.length vs)).
Proof. intro Hne. destruct vs; [congruence | reflexivity]. Qed.

Lemma std_population_nonempty (vs : list R) :
  vs <> [] ->
  std 0 vs
  = Num (sqrt (Rsum (map (fun v => (Rsum vs / INR (List.length vs) - v)
                                   * (Rsum vs / INR (List.length vs) - v)) vs)
               / INR (List.length vs))).
Proof.
  intro Hne. unfold std.
  destruct vs as [| v rest]; [congruence |].
  change (List.length (v :: rest) <=? 0)%nat with false. cbv iota zeta.
  now rewrite Nat.sub_0_r.
Qed.

(** [dropna] leaves exactly the numbers of the records that have one. *)
Lemma values_are_present_values (sel : list row) :
  values sel = present_values sel.
Proof.
  unfold values, present_values.
  induction sel as [| r rest IH]; cbn [map dropna filter].
  - reflexivity.
  - unfold is_present at 1. destruct (value r) as [| v] eqn:Hv.
    + exact IH.
    + cbn [map]. unfold number_in at 1. rewrite Hv. now rewrite IH.
Qed.

(** C6: with at least one present value, [std_val] is the population
    standard deviation of the present values, divisor N = the number of
    present values; missing values take no part (1, missing, 3 gives 1),
    and on the values 1 and 3 it is 1, not the N - 1 figure. *)
Theorem C6_std_is_population_std :
  (forall sel : list row,
      present_values sel <> [] ->
      std_val sel = Num (population_std_dev (present_values sel)))
  /\ std_val one_missing = Num 1
  /\ std_val two_values = Num 1
  /\ std_val two_values <> Num (sample_std_dev (present_values two_values)).
Proof.
  assert (Hpop : forall sel : list row,
             present_values sel <> [] ->
             std_val sel = Num (population_std_dev (present_values sel))).
  { intros sel Hne. unfold std_val, population_std_dev.
    rewrite values_are_present_values.
    rewrite (std_population_nonempty _ Hne).
    erewrite map_ext; [reflexivity | intro v; simpl; ring]. }
  assert (Hmiss : std_val one_missing = Num 1).
  { unfold std_val. rewrite std_population_nonempty by discriminate.
    f_equal. rewrite <- sqrt_1 at 1. f_equal. simpl. field. }
  assert (Hone : std_val two_values = Num 1).
  { unfold std_val. rewrite std_population_nonempty by discriminate.
    f_equal. rewrite <- sqrt_1 at 1. f_equal. simpl. field. }
  split; [exact Hpop |]. split; [exact Hmiss |]. split; [exact Hone |].
  rewrite Hone. intro Heq. inversion Heq as [Hsqrt].
  change (present_values two_values) with [1; 3] in Hsqrt.
  unfold sample_std_dev in Hsqrt. simpl in Hsqrt.
  assert (Hsq : sqrt 2 = 1).
  { rewrite Hsqrt. f_equal. field. }
  assert (H2 : sqrt 2 * sqrt 2 = 2) by (apply sqrt_sqrt; lra).
  rewrite Hsq in H2. lra.
Qed.

Lemma C6_witness :
  present_values one_missing = [1; 3]
  /\ std_val one_missing = Num (population_std_dev [1; 3])
  /\ population_std_dev [1; 3] = 1.
Proof.
  split; [reflexivity |]. split.
  - apply (proj1 C6_std_is_population_std one_missing). discriminate.
  - unfold population_std_dev.
    transitivity (sqrt 1); [f_equal; simpl; field | apply sqrt_1].
Defined.

(** ** Arrival order does not matter *)

Lemma date_leb_antisym (a b : datetime) :
  date_le a b -> date_le b a -> a = b.
Proof.
  unfold date_le.
  destruct a as [| y1 m1 d1], b as [| y2 m2 d2]; simpl;
    try reflexivity; try discriminate.
  intros H1 H2.
  destruct (Z.ltb_spec y1 y2), (Z.eqb_spec y1 y2),
           (Z.ltb_spec m1 m2), (Z.eqb_spec m1 m2),
           (Z.leb_spec d1 d2); simpl in H1; try discriminate H1;
  destruct (Z.ltb_spec y2 y1), (Z.eqb_spec y2 y1),
           (Z.ltb_spec m2 m1), (Z.eqb_spec m2 m1),
           (Z.leb_spec d2 d1); simpl in H2; try discriminate H2;
  try lia; f_equal; lia.
Qed.

Lemma sorted_dates_unique (l1 l2 : list datetime) :
  StronglySorted date_le l1 -> StronglySorted date_le l2 ->
  Permutation l1 l2 -> l1 = l2.
Proof.
  revert l2. induction l1 as [| a rest IH]; intros l2 Hs1 Hs2 Hperm.
  - apply Permutation_nil in Hperm. now subst.
  - destruct l2 as [| b rest2].
    + apply Permutation_sym, Permutation_nil in Hperm. discriminate Hperm.
    + inversion Hs1 as [| ? ? Hrest1 Hall1]; subst.
      inversion Hs2 as [| ? ? Hrest2 Hall2]; subst.
      assert (Hab : a = b).
      { assert (Ha : In a (b :: rest2))
          by (apply (Permutation_in _ Hperm); now left).
        assert (Hb : In b (a :: rest))
          by (apply (Permutation_in _ (Permutation_sym Hperm)); now left).
        destruct Ha as [Ha | Ha]; [now symmetry |].
        destruct Hb as [Hb | Hb]; [exact Hb |].
        rewrite Forall_forall in Hall1, Hall2.
        apply date_leb_antisym; [apply Hall1 | apply Hall2]; assumption. }
      subst b. f_equal. apply IH; try assumption.
      apply (Permutation_cons_inv Hperm).
Qed.

Lemma records_raise_some_fails (to_datetime : string -> result datetime)
      (data : series) (e : exn) :
  records to_datetime data = Raise e -> some_fails to_datetime data.
Proof.
  revert e. induction data as [| [k v] rest IH]; intros e Hraise.
  - discriminate Hraise.
  - simpl in Hraise. destruct (to_datetime k) as [d | e0] eqn:Hk.
    + simpl in Hraise.
      destruct (records to_datetime rest) as [r | e1]; [discriminate |].
      destruct (IH e1 eq_refl) as [k' [v' [Hin Hr]]].
      exists k', v'. split; [now right | exact Hr].
    + exists k, v. split; [now left |]. exists e0. exact Hk.
Qed.

Lemma records_dates (to_datetime : string -> result datetime)
      (data data' : series) (recs recs' : list row) :
  Permutation data data' ->
  records to_datetime data = Return recs ->
  records to_datetime data' = Return recs' ->
  Permutation (dates recs) (dates recs').
Proof.
  intro Hperm. revert recs recs'.
  induction Hperm as [| [k v] l l' Hp IH | [k1 v1] [k2 v2] l | l l' l'' Hp1 IH1 Hp2 IH2];
    intros recs recs' H1 H2.
  - simpl in H1, H2. inversion H1. inversion H2. apply perm_nil.
  - simpl in H1, H2. destruct (to_datetime k) as [d | e]; [| discriminate].
    simpl in H1, H2.
    destruct (records to_datetime l) as [r1 | e1]; [| discriminate].
    destruct (records to_datetime l') as [r2 | e2]; [| discriminate].
    simpl in H1, H2. inversion H1. inversion H2. simpl.
    apply perm_skip. apply IH; reflexivity.
  - simpl in H1, H2.
    destruct (to_datetime k1) as [d1 | e1]; [| destruct (to_datetime k2); discriminate].
    destruct (to_datetime k2) as [d2 | e2]; [| discriminate].
    simpl in H1, H2.
    destruct (records to_datetime l) as [r | e]; [| discriminate].
    simpl in H1, H2. inversion H1. inversion H2. simpl. apply perm_swap.
  - destruct (records to_datetime l') as [mid | e] eqn:Hmid.
    + eapply perm_trans; [apply (IH1 recs mid) | apply (IH2 mid recs')];
        auto.
    + exfalso.
      assert (Hfail : some_fails to_datetime l).
      { destruct (records_raise_some_fails to_datetime l' e Hmid)
          as [k [v [Hin Hr]]].
        exists k, v. split; [| exact Hr].
        apply (Permutation_in _ (Permutation_sym Hp1)). exact Hin. }
      destruct (records_some_fails to_datetime l Hfail) as [e' He'].
      rewrite He' in H1. discriminate H1.
Qed.

(** Two arrival orders of the same entries give the same "date" column. *)
Lemma build_dataframe_order_independent
      (to_datetime : string -> result datetime) (parameter : string)
      (data data' : series) (df df' : DataFrame) :
  Permutation data data' ->
  build_dataframe to_datetime (response_of parameter data) parameter = Return df ->
  build_dataframe to_datetime (response_of parameter data') parameter = Return df' ->
  dates (rows df) = dates (rows df').
Proof.
  intros Hperm H1 H2.
  destruct (build_dataframe_rows to_datetime _ _ _ H1) as [r1 [Hr1 [_ Hdf1]]].
  destruct (build_dataframe_rows to_datetime _ _ _ H2) as [r2 [Hr2 [_ Hdf2]]].
  rewrite data_of_response_of in Hr1, Hr2. subst df df'. simpl.
  apply sorted_dates_unique; try apply sort_rows_strongly_sorted.
  unfold dates.
  eapply perm_trans;
    [apply Permutation_map, Permutation_sym, sort_rows_perm |].
  eapply perm_trans; [| apply Permutation_map, sort_rows_perm].
  exact (records_dates to_datetime data data' r1 r2 Hperm Hr1 Hr2).
Qed.

(** * Further properties of the pipeline *)

(** ** Day samples and the calendar *)

Open Scope Z_scope.

Lemma month_is_one_of_twelve (m : Z) :
  1 <= m <= 12 ->
  m = 1 \/ m = 2 \/ m = 3 \/ m = 4 \/ m = 5 \/ m = 6
  \/ m = 7 \/ m = 8 \/ m = 9 \/ m = 10 \/ m = 11 \/ m = 12.
Proof. lia. Qed.

Ltac by_month m Hm :=
  let H := fresh "Hmonth" in
  pose proof (month_is_one_of_twelve m Hm) as H;
  repeat (destruct H as [H | H]; [subst m |]); [.. | subst m].

Ltac calendar_simpl :=
  cbv beta iota zeta
      delta [dayofyear days_before_month days_in_month calendar_date] in *.

Lemma dayofyear_bounds (y m d : Z) :
  calendar_date (Timestamp y m d) ->
  exists n, dayofyear (Timestamp y m d) = Some n
            /\ 1 <= n <= (if is_leap_year y then 366 else 365).
Proof.
  intros [Hm Hd]. eexists. split; [reflexivity |].
  by_month m Hm; calendar_simpl; destruct (is_leap_year y); lia.
Qed.

Lemma dayofyear_366 (y m d : Z) :
  calendar_date (Timestamp y m d) ->
  dayofyear (Timestamp y m d) = Some 366 ->
  is_leap_year y = true /\ m = 12 /\ d = 31.
Proof.
  intros [Hm Hd] Hdoy. calendar_simpl. inversion Hdoy as [Hsum]. clear Hdoy.
  by_month m Hm; calendar_simpl; destruct (is_leap_year y);
    (split; [| split]); try reflexivity; lia.
Qed.

Lemma dayofyear_same_year (y m1 d1 m2 d2 : Z) :
  calendar_date (Timestamp y m1 d1) ->
  calendar_date (Timestamp y m2 d2) ->
  dayofyear (Timestamp y m1 d1) = dayofyear (Timestamp y m2 d2) ->
  m1 = m2 /\ d1 = d2.
Proof.
  intros [Hm1 Hd1] [Hm2 Hd2] Hdoy. calendar_simpl.
  inversion Hdoy as [Hsum]. clear Hdoy.
  destruct (is_leap_year y);
    by_month m1 Hm1; by_month m2 Hm2; calendar_simpl; lia.
Qed.

Lemma filter_keeps_order (p : row -> bool) (rs : list row) :
  StronglySorted date_le (dates rs) ->
  StronglySorted date_le (dates (filter p rs)).
Proof.
  induction rs as [| r rest IH]; simpl; intro Hs.
  - constructor.
  - inversion Hs as [| ? ? Hrest Hall]; subst.
    destruct (p r); simpl.
    + constructor; [apply IH; exact Hrest |].
      rewrite Forall_forall in *. intros d Hd. apply Hall.
      unfold dates in *. apply in_map_iff in Hd. destruct Hd as [r' [Hr' Hin]].
      apply in_map_iff. exists r'. split; [exact Hr' |].
      apply filter_In in Hin. tauto.
    + apply IH. exact Hrest.
Qed.

(** The day sample taken from a frame that [build_dataframe] returned is
    in chronological order, and each of its rows is a row of the frame
    that carries a Timestamp on day [D]. *)
Theorem day_sample_chronological :
  forall (to_datetime : string -> result datetime)
         (json_resp : json_response) (parameter : string)
         (df : DataFrame) (D : Z),
    build_dataframe to_datetime json_resp parameter = Return df ->
    StronglySorted date_le (dates (selected df D))
    /\ forall r, In r (selected df D) ->
                 In r (rows df) /\ has_timestamp r
                 /\ dayofyear (date r) = Some D.
Proof.
  intros to_datetime json_resp parameter df D Hbuild. split.
  - destruct (build_dataframe_rows to_datetime _ _ _ Hbuild)
      as [recs [_ [_ Hdf]]].
    subst df. unfold selected. simpl rows.
    apply filter_keeps_order. apply sort_rows_strongly_sorted.
  - intros r Hin. split; [| split].
    + unfold selected in Hin. apply filter_In in Hin. tauto.
    + exact (selected_has_date df D r Hin).
    + exact (selected_day_of_year df D r Hin).
Qed.

Lemma day_sample_chronological_witness :
  exists df,
    build_dataframe to_datetime_compact
                    (response_of "T2M" data_unordered) "T2M" = Return df
    /\ dates (selected df 1)
       = [Timestamp 1999 1 1; Timestamp 2000 1 1; Timestamp 2001 1 1]
    /\ StronglySorted date_le (dates (selected df 1)).
Proof.
  eexists. split; [reflexivity |]. split; [reflexivity |].
  apply (proj1 (day_sample_chronological
                  to_datetime_compact (response_of "T2M" data_unordered)
                  "T2M" _ 1 eq_refl)).
Defined.

(** Day 366 exists in leap years only: over a frame of calendar dates the
    sample of day 366 holds nothing but 31 December of leap years. *)
Theorem day_366_is_leap_year_end :
  forall (df : DataFrame),
    calendar_frame df ->
    forall r, In r (selected df 366) ->
              exists y, date r = Timestamp y 12 31 /\ is_leap_year y = true.
Proof.
  intros df Hcal r Hin.
  pose proof (selected_day_of_year df 366 r Hin) as Hdoy.
  assert (Hrow : In r (rows df))
    by (unfold selected in Hin; apply filter_In in Hin; tauto).
  pose proof (Hcal r Hrow) as Hdate.
  destruct (date r) as [| y m d]; [discriminate Hdoy |].
  destruct (dayofyear_366 y m d Hdate Hdoy) as [Hleap [Hm Hd]].
  subst m d. exists y. split; [reflexivity | exact Hleap].
Qed.

Lemma df_leap_days_calendar : calendar_frame df_leap_days.
Proof.
  intros r Hin. simpl in Hin.
  destruct Hin as [H | [H | [H | [H | []]]]]; subst r;
    cbv [date calendar_date]; split; try lia; vm_compute; split; discriminate.
Qed.

Lemma day_366_is_leap_year_end_witness :
  selected df_leap_days 366 = [mkRow (Timestamp 2000 12 31) (Num 2)]
  /\ exists y, Timestamp 2000 12 31 = Timestamp y 12 31
               /\ is_leap_year y = true.
Proof.
  split; [reflexivity |].
  apply (day_366_is_leap_year_end df_leap_days df_leap_days_calendar
           (mkRow (Timestamp 2000 12 31) (Num 2))).
  simpl. left. reflexivity.
Defined.

(** Within one year a day of the year is one calendar day: two rows of a
    day sample that lie in the same year carry the same date. *)
Theorem day_sample_one_date_per_year :
  forall (df : DataFrame) (D : Z) (r1 r2 : row),
    calendar_frame df ->
    In r1 (selected df D) ->
    In r2 (selected df D) ->
    year (date r1) = year (date r2) ->
    date r1 = date r2.
Proof.
  intros df D r1 r2 Hcal H1 H2 Hyear.
  pose proof (selected_day_of_year df D r1 H1) as Hd1.
  pose proof (selected_day_of_year df D r2 H2) as Hd2.
  assert (Hc1 : calendar_date (date r1)).
  { apply Hcal. unfold selected in H1. apply filter_In in H1. tauto. }
  assert (Hc2 : calendar_date (date r2)).
  { apply Hcal. unfold selected in H2. apply filter_In in H2. tauto. }
  destruct (date r1) as [| y1 m1 d1]; [discriminate Hd1 |].
  destruct (date r2) as [| y2 m2 d2]; [discriminate Hd2 |].
  simpl in Hyear. inversion Hyear as [Hy]. apply eq_IZR in Hy. subst y2.
  destruct (dayofyear_same_year y1 m1 d1 m2 d2 Hc1 Hc2) as [Hm Hd].
  - rewrite Hd1, Hd2. reflexivity.
  - subst. reflexivity.
Qed.

Lemma df_same_day_twice_calendar : calendar_frame df_same_day_twice.
Proof.
  intros r Hin. simpl in Hin.
  destruct Hin as [H | [H | [H | []]]]; subst r;
    cbv [date calendar_date]; split; try lia; vm_compute; split; discriminate.
Qed.

Lemma day_sample_one_date_per_year_witness :
  mkRow (Timestamp 2000 12 31) (Num 2) <> mkRow (Timestamp 2000 12 31) (Num 7)
  /\ date (mkRow (Timestamp 2000 12 31) (Num 2))
     = date (mkRow (Timestamp 2000 12 31) (Num 7)).
Proof.
  split.
  - intro H. inversion H as [Hv]. lra.
  - apply (day_sample_one_date_per_year df_same_day_twice 366 _ _
             df_same_day_twice_calendar).
    + simpl. left. reflexivity.
    + simpl. right. left. reflexivity.
    + reflexivity.
Defined.

(** From March on, a calendar day has a day-of-year one larger in a leap
    year than in a common year (in January and February it is the same),
    so one day sample mixes two neighbouring calendar days. *)
Theorem leap_year_shifts_day_of_year :
  forall (y1 y2 m d n : Z),
    is_leap_year y1 = true ->
    is_leap_year y2 = false ->
    1 <= m <= 12 ->
    dayofyear (Timestamp y2 m d) = Some n ->
    dayofyear (Timestamp y1 m d) = Some (if m <=? 2 then n else n + 1).
Proof.
  intros y1 y2 m d n Hl1 Hl2 Hm Hdoy. calendar_simpl.
  rewrite Hl1. rewrite Hl2 in Hdoy. inversion Hdoy as [Hn]. clear Hdoy.
  f_equal. by_month m Hm; calendar_simpl; cbn [Z.leb Z.compare Pos.compare Pos.compare_cont]; lia.
Qed.

Lemma leap_year_shifts_day_of_year_witness :
  dayofyear (Timestamp 2004 3 1) = Some 61
  /\ selected df_leap_days 60
     = [mkRow (Timestamp 2001 3 1) (Num 3); mkRow (Timestamp 2004 2 29) (Num 4)].
Proof.
  split; [| reflexivity].
  apply (leap_year_shifts_day_of_year 2004 2001 3 1 60);
    [reflexivity | reflexivity | lia | reflexivity].
Defined.

Close Scope Z_scope.

(** ** The requested period *)

Lemma four_digit_years_round_trip :
  forallb year_round_trips four_digit_years = true.
Proof. vm_compute. reflexivity. Qed.

Lemma reads_as_true (k : string) (y m d : Z) :
  reads_as k y m d = true -> to_datetime_compact k = Return (Timestamp y m d).
Proof.
  unfold reads_as. destruct (to_datetime_compact k) as [[| y' m' d'] | e];
    try discriminate.
  intro H. apply andb_prop in H. destruct H as [H Hd].
  apply andb_prop in H. destruct H as [Hy Hm].
  apply Z.eqb_eq in Hy, Hm, Hd. now subst.
Qed.

(** For a year of four digits, the "start" and "end" parameters of the
    request are the keys of its 1 January and its 31 December, in the form
    the service uses for the days it returns. *)
Theorem request_period_covers_whole_years :
  forall y : Z,
    (1000 <= y <= 9999)%Z ->
    to_datetime_compact (power_start y) = Return (Timestamp y 1 1)
    /\ to_datetime_compact (power_end y) = Return (Timestamp y 12 31).
Proof.
  intros y Hy.
  pose proof four_digit_years_round_trip as Hall.
  rewrite forallb_forall in Hall.
  assert (Hin : In y four_digit_years).
  { unfold four_digit_years. apply in_map_iff.
    exists (Z.to_nat (y - 1000)). split; [lia |].
    apply in_seq. lia. }
  specialize (Hall y Hin). unfold year_round_trips in Hall.
  apply andb_prop in Hall. destruct Hall as [Hs He].
  split; apply reads_as_true; assumption.
Qed.

Lemma request_period_covers_whole_years_witness :
  to_datetime_compact (power_start year_start) = Return (Timestamp 1991 1 1)
  /\ to_datetime_compact (power_end year_start) = Return (Timestamp 1991 12 31).
Proof.
  apply (request_period_covers_whole_years year_start). unfold year_start. lia.
Defined.

(** A year of fewer than four digits gives a start parameter that is not
    of that form. *)
Lemma short_year_start_malformed :
  power_start 999 = "9990101"%string
  /\ to_datetime_compact (power_start 999) = Raise (DateParseError "9990101").
Proof. split; reflexivity. Qed.

(** ** The fit on complete columns *)

Lemma dropna_numbers (col : list float64) :
  existsb isna col = false -> dropna col = map number_of col.
Proof.
  induction col as [| c rest IH]; simpl; intro H.
  - reflexivity.
  - destruct c as [| v]; simpl in *; [discriminate H |].
    now rewrite IH.
Qed.

Lemma slope_cases (sel : list row) :
  sel <> [] ->
  slope sel
  = if existsb isna (map (fun r => year (date r)) sel)
    then Raise (LinAlgError "SVD did not converge in Linear Least Squares")
    else if existsb isna (map value sel) then Return NaN
         else fit_numbers (map year_number sel) (map value_number sel).
Proof.
  intro Hne. unfold slope, polyfit_slope.
  destruct sel as [| r0 rest]; [congruence |].
  remember (r0 :: rest) as rs eqn:Hrs.
  assert (Hx : map (fun r => year (date r)) rs
               = year (date r0) :: map (fun r => year (date r)) rest)
    by (subst rs; reflexivity).
  rewrite Hx at 1. rewrite !length_map, Nat.eqb_refl. simpl negb. cbv iota.
  destruct (existsb isna (map (fun r => year (date r)) rs)) eqn:Ex;
    [reflexivity |].
  destruct (existsb isna (map value rs)) eqn:Ey; [reflexivity |].
  rewrite (dropna_numbers _ Ex), (dropna_numbers _ Ey), !map_map.
  reflexivity.
Qed.

Lemma trend_text_scaled (k s : R) :
  0 < k -> trend_text (Num (k * s)) = trend_text (Num s).
Proof.
  intro Hk. unfold trend_text, fgt, flt, Rgtb, Rltb'.
  destruct (Rlt_dec 0 s) as [Hs | Hs].
  - destruct (Rlt_dec 0 (k * s)) as [_ | Hn]; [reflexivity |].
    exfalso. apply Hn. apply Rmult_lt_0_compat; assumption.
  - destruct (Rlt_dec 0 (k * s)) as [Hp | _].
    + exfalso. assert (s <= 0) by lra. nra.
    + destruct (Rlt_dec s 0) as [Hneg | Hnneg].
      * destruct (Rlt_dec (k * s) 0) as [_ | Hn]; [reflexivity |].
        exfalso. apply Hn. nra.
      * destruct (Rlt_dec (k * s) 0) as [Hp | _]; [| reflexivity].
        exfalso. assert (s = 0) by lra. subst s. lra.
Qed.

(** ** When the run succeeds *)

Lemma slope_returns (sel : list row) :
  sel <> [] ->
  (forall r, In r sel -> has_timestamp r) ->
  (forall r, In r sel -> year (date r) <> Num 0) ->
  exists s, slope sel = Return s.
Proof.
  intros Hne Hd Hy0.
  rewrite (slope_cases sel Hne), (years_not_na sel Hd).
  destruct (existsb isna (map value sel)); [now exists NaN |].
  unfold fit_numbers. cbv zeta.
  destruct (Req_dec_T _ 0) as [_ | _]; [| eexists; reflexivity].
  destruct sel as [| r0 rest]; [congruence |].
  simpl hd.
  destruct (Req_dec_T (year_number r0) 0) as [Hz | _]; [| eexists; reflexivity].
  exfalso. apply (Hy0 r0 (or_introl eq_refl)).
  destruct (Hd r0 (or_introl eq_refl)) as [y [m [d Hdate]]].
  unfold year_number in Hz. rewrite Hdate in *. simpl in *. now rewrite Hz.
Qed.

(** Over a frame without a row of the year 0 (pandas has no such
    Timestamp), the analysis of a day returns a result exactly when the
    day sample is not empty and the mapping holds at least one number, so
    that the value column is a float column. *)
Theorem analysis_returns_iff_sample_nonempty :
  forall (df : DataFrame) (D : Z),
    (forall r, In r (selected df D) -> year (date r) <> Num 0) ->
    ((exists a, analysis df D = Return a)
     <-> (selected df D <> [] /\ object_column df = false)).
Proof.
  intros df D Hy0. split.
  - intros [a Ha]. split.
    + intro Hnil. rewrite (analysis_empty df D Hnil) in Ha. discriminate Ha.
    + destruct (object_column df) eqn:Hobj; [| reflexivity].
      destruct (selected df D) as [| r rest] eqn:Hsel.
      * rewrite (analysis_empty df D Hsel) in Ha. discriminate Ha.
      * rewrite (analysis_object_column df D) in Ha;
          [discriminate Ha | rewrite Hsel; discriminate | exact Hobj].
  - intros [Hne Hobj].
    destruct (slope_returns (selected df D) Hne) as [s Hs].
    + intros r Hin. exact (selected_has_date df D r Hin).
    + exact Hy0.
    + rewrite (analysis_float_column df D s Hobj Hs). eexists. reflexivity.
Qed.

Lemma analysis_returns_iff_sample_nonempty_witness :
  (exists a, analysis df_leap_days 60 = Return a)
  /\ ~ (exists a, analysis df_all_null 15 = Return a).
Proof.
  split.
  - assert (Hyears : forall r, In r (selected df_leap_days 60) ->
                               year (date r) <> Num 0).
    { intros r Hin. simpl in Hin.
      destruct Hin as [H | [H | []]]; subst r; simpl;
        intro Heq; inversion Heq as [Hy]; apply eq_IZR in Hy; discriminate Hy. }
    apply (proj2 (analysis_returns_iff_sample_nonempty df_leap_days 60 Hyears)).
    split; [discriminate | reflexivity].
  - assert (Hyears : forall r, In r (selected df_all_null 15) ->
                               year (date r) <> Num 0).
    { intros r Hin. simpl in Hin.
      destruct Hin as [H | [H | []]]; subst r; simpl;
        intro Heq; inversion Heq as [Hy]; apply eq_IZR in Hy; discriminate Hy. }
    intro Hret.
    destruct (proj1 (analysis_returns_iff_sample_nonempty df_all_null 15 Hyears)
                Hret) as [_ Hobj].
    discriminate Hobj.
Defined.

Lemma values_length_complete (sel : list row) :
  (forall r, In r sel -> value r <> NaN) ->
  List.length (values sel) = List.length sel.
Proof.
  unfold values. induction sel as [| r rest IH]; intro H; simpl.
  - reflexivity.
  - pose proof (H r (or_introl eq_refl)) as Hr.
    destruct (value r) as [| v]; [congruence |].
    simpl. f_equal. apply IH. intros r' Hin. apply H. now right.
Qed.

(** A day sample without missing values whose records all lie in one
    year Y > 0 still gets a trend: the fit returns mean / (2 Y), so the
    trend word is decided by the sign of the mean value alone. *)
Theorem single_year_trend_is_sign_of_mean :
  forall (df : DataFrame) (D Y : Z) (m : R),
    (distinct_years (selected df D) < 2)%nat ->
    (forall r, In r (selected df D) -> value r <> NaN) ->
    In Y (present_years (selected df D)) ->
    (0 < Y)%Z ->
    mean_val (selected df D) = Num m ->
    slope (selected df D) = Return (Num (m / (2 * IZR Y)))
    /\ trend_text (Num (m / (2 * IZR Y))) = trend_text (Num m).
Proof.
  intros df D Y m Hdist Hv HY Hpos Hmean.
  assert (HYr : 0 < IZR Y) by (apply IZR_lt in Hpos; exact Hpos).
  split.
  - rewrite (slope_single_year (selected df D) Y); try assumption.
    + rewrite <- (values_length_complete _ Hv).
      unfold mean_val in Hmean.
      destruct (values (selected df D)) as [| a rest] eqn:Hvs.
      * discriminate Hmean.
      * rewrite (mean_nonempty (a :: rest)) in Hmean by discriminate.
        inversion Hmean. reflexivity.
    + intro Hnil. rewrite Hnil in HY. destruct HY.
    + intros r Hin. exact (selected_has_date df D r Hin).
    + lia.
  - replace (m / (2 * IZR Y)) with (/ (2 * IZR Y) * m) by (field; lra).
    apply trend_text_scaled. apply Rinv_0_lt_compat. lra.
Qed.

Lemma single_year_trend_is_sign_of_mean_witness :
  slope (selected df_new_year 1) = Return (Num (5 / (2 * 2000)))
  /\ trend_text (Num (5 / (2 * 2000))) = trend_text (Num 5).
Proof.
  apply (single_year_trend_is_sign_of_mean df_new_year 1 2000 5).
  - cbn. lia.
  - intros r Hin. cbn in Hin. destruct Hin as [H | []]. subst r. discriminate.
  - cbn. left. reflexivity.
  - lia.
  - unfold mean_val, mean. cbn. f_equal. field.
Defined.

(** ** When the normalizer succeeds *)

Lemma records_return_all_parse (to_datetime : string -> result datetime)
      (data : series) (recs : list row) :
  records to_datetime data = Return recs ->
  all_parse to_datetime data /\ List.length recs = List.length data.
Proof.
  revert recs. induction data as [| [k v] rest IH]; intros recs Hrec.
  - simpl in Hrec. inversion Hrec. split; [intros k v [] | reflexivity].
  - simpl in Hrec. destruct (to_datetime k) as [d | e] eqn:Hk; [| discriminate].
    simpl in Hrec.
    destruct (records to_datetime rest) as [rs | e]; [| discriminate].
    simpl in Hrec. inversion Hrec.
    destruct (IH rs eq_refl) as [Hall Hlen]. split.
    + intros k' v' [Heq | Hin].
      * inversion Heq; subst. now exists d.
      * exact (Hall k' v' Hin).
    + simpl. now rewrite Hlen.
Qed.

Lemma sort_rows_length (rs : list row) :
  List.length (sort_rows rs) = List.length rs.
Proof. symmetry. apply Permutation_length, sort_rows_perm. Qed.

(** [build_dataframe] returns a frame exactly when the mapping it reads is
    non-empty and every key is read by [pd.to_datetime]; the frame then
    has the columns "date" and the variable, and as many rows as the
    mapping has entries.  On an empty mapping the exception is
    KeyError("date"). *)
Theorem build_dataframe_succeeds_iff :
  forall (to_datetime : string -> result datetime)
         (json_resp : json_response) (parameter : string),
    ((exists df, build_dataframe to_datetime json_resp parameter = Return df)
     <-> (data_of json_resp parameter <> []
          /\ all_parse to_datetime (data_of json_resp parameter)))
    /\ (forall df,
           build_dataframe to_datetime json_resp parameter = Return df ->
           columns df = ["date"%string; parameter]
           /\ List.length (rows df)
              = List.length (data_of json_resp parameter))
    /\ (data_of json_resp parameter = [] ->
        build_dataframe to_datetime json_resp parameter
        = Raise (KeyError "date")).
Proof.
  intros to_datetime json_resp parameter.
  assert (Hshape : forall df,
             build_dataframe to_datetime json_resp parameter = Return df ->
             data_of json_resp parameter <> []
             /\ all_parse to_datetime (data_of json_resp parameter)
             /\ columns df = ["date"%string; parameter]
             /\ List.length (rows df)
                = List.length (data_of json_resp parameter)).
  { intros df Hbuild.
    destruct (build_dataframe_rows to_datetime _ _ _ Hbuild)
      as [recs [Hrecs [Hne Hdf]]].
    destruct (records_return_all_parse _ _ _ Hrecs) as [Hall Hlen].
    subst df. simpl. rewrite sort_rows_length, Hlen.
    repeat split; try assumption.
    intro Hnil. rewrite Hnil in Hlen. destruct recs; [congruence | discriminate]. }
  split; [split |]; [| | split].
  - intros [df Hbuild]. destruct (Hshape df Hbuild) as [Hne [Hall _]].
    split; assumption.
  - intros [Hne Hall].
    destruct (build_dataframe_returns to_datetime _ _ Hall Hne)
      as [recs [_ [_ Hbuild]]].
    eexists. exact Hbuild.
  - intros df Hbuild. destruct (Hshape df Hbuild) as [_ [_ Hcols]]. exact Hcols.
  - intro Hnil. rewrite build_dataframe_unfold, Hnil. reflexivity.
Qed.

Lemma build_dataframe_succeeds_iff_witness :
  exists df,
    build_dataframe to_datetime_compact
                    (response_of "T2M" data_unordered) "T2M" = Return df.
Proof.
  apply (proj2 (proj1 (build_dataframe_succeeds_iff
                         to_datetime_compact
                         (response_of "T2M" data_unordered) "T2M"))).
  split.
  - discriminate.
  - intros k v Hin. simpl in Hin.
    destruct Hin as [H | [H | [H | []]]]; inversion H; subst;
      eexists; reflexivity.
Defined.

Lemma build_dataframe_order_independent_witness :
  exists df df',
    build_dataframe to_datetime_compact
                    (response_of "T2M" data_unordered) "T2M" = Return df
    /\ build_dataframe to_datetime_compact
                       (response_of "T2M" data_reordered) "T2M" = Return df'
    /\ dates (rows df) = dates (rows df').
Proof.
  eexists. eexists. split; [reflexivity |]. split; [reflexivity |].
  apply (build_dataframe_order_independent
           to_datetime_compact "T2M" data_unordered data_reordered).
  - unfold data_unordered, data_reordered.
    eapply perm_trans; [apply perm_skip, perm_swap | apply perm_swap].
  - reflexivity.
  - reflexivity.
Defined.

(** * The exceedance frequency in doubles *)

Section Binary64Facts.

Import PrimFloat FloatOps.
#[local] Set Warnings "-inexact-float".
Local Open Scope float_scope.

Lemma spec_compare_refl (x : SpecFloat.spec_float) :
  x <> SpecFloat.S754_nan -> SpecFloat.SFcompare x x = Some Eq.
Proof.
  destruct x as [s | s | | s m e]; intro Hnan; try congruence; simpl.
  - reflexivity.
  - destruct s; reflexivity.
  - destruct s; rewrite Z.compare_refl, Pos.compare_cont_refl; reflexivity.
Qed.

Lemma ltb_irrefl (t : float) : (t <? t) = false.
Proof.
  rewrite FloatAxioms.ltb_spec. unfold SpecFloat.SFltb.
  destruct (Prim2SF t) as [s | s | | s m e] eqn:Ht; try reflexivity.
  - destruct s; reflexivity.
  - rewrite spec_compare_refl by discriminate. reflexivity.
Qed.

Lemma nan_never_above (t c : float) : is_nan c = true -> (t <? c) = false.
Proof.
  unfold is_nan. rewrite FloatAxioms.eqb_spec, FloatAxioms.ltb_spec.
  unfold SpecFloat.SFeqb, SpecFloat.SFltb. intro Hnan.
  destruct (Prim2SF c) as [s | s | | s m e] eqn:Hc.
  - simpl in Hnan. discriminate Hnan.
  - rewrite spec_compare_refl in Hnan by discriminate. discriminate Hnan.
  - destruct (Prim2SF t); reflexivity.
  - rewrite spec_compare_refl in Hnan by discriminate. discriminate Hnan.
Qed.

Lemma ltb_add_zero (m v : float) : (m + 0 <? v) = (m <? v).
Proof.
  rewrite !FloatAxioms.ltb_spec, FloatAxioms.add_spec.
  change (Prim2SF 0) with (SpecFloat.S754_zero false).
  destruct (Prim2SF m) as [s | s | | s mm e]; try reflexivity;
    destruct s; reflexivity.
Qed.

Lemma values_length (col : list float) :
  List.length (Binary64.values col) = Binary64.count_present col.
Proof.
  unfold Binary64.values, Binary64.count_present.
  induction col as [| c rest IH]; simpl.
  - reflexivity.
  - unfold is_nan. destruct (c =? c); simpl; now rewrite IH.
Qed.

Lemma count_true_gt (t : float) (col : list float) :
  Binary64.count_true (Binary64.gt_scalar (Binary64.values col) t)
  = Binary64.count_exceeding t col.
Proof.
  unfold Binary64.count_true, Binary64.gt_scalar, Binary64.values,
    Binary64.count_exceeding.
  induction col as [| c rest IH]; simpl.
  - reflexivity.
  - destruct (is_nan c) eqn:Hnan.
    + rewrite (nan_never_above t c Hnan). exact IH.
    + simpl. destruct (t <? c); simpl; now rewrite IH.
Qed.

Lemma frequency_above (t : float) (col : list float) :
  Binary64.count_present col <> 0%nat ->
  Binary64.mean_bool (Binary64.gt_scalar (Binary64.values col) t)
  = Binary64.of_nat (Binary64.count_exceeding t col)
    / Binary64.of_nat (Binary64.count_present col).
Proof.
  intro Hne. rewrite <- values_length in *. rewrite <- count_true_gt.
  unfold Binary64.gt_scalar.
  destruct (Binary64.values col) as [| v rest]; [now elim Hne |].
  unfold Binary64.mean_bool. cbn [map]. cbn [List.length].
  now rewrite length_map.
Qed.

Lemma filter_ext_length (f g : float -> bool) (l : list float) :
  (forall c, f c = g c) ->
  List.length (filter f l) = List.length (filter g l).
Proof.
  intro H. induction l as [| c rest IH]; simpl.
  - reflexivity.
  - rewrite (H c). destruct (g c); simpl; now rewrite IH.
Qed.

(** C5, as the code has it: with at least one present value, the
    exceedance frequency is the number of present values strictly above
    the double [mean_val + 2 * std_val], divided by the number of present
    values; missing values count on neither side, and a value equal to
    that threshold is not counted.  When std_dev is 0 the threshold is the
    mean, and the frequency is the share of the present values strictly
    above the mean. *)
Theorem C5_exceedance_frequency :
  forall col : list float,
    Binary64.count_present col <> 0%nat ->
    Binary64.prob_extreme col
    = Binary64.of_nat
        (Binary64.count_exceeding
           (Binary64.mean_val col + 2 * Binary64.std_val col) col)
      / Binary64.of_nat (Binary64.count_present col)
    /\ Binary64.count_exceeding
         (Binary64.mean_val col + 2 * Binary64.std_val col)
         [Binary64.mean_val col + 2 * Binary64.std_val col]
       = 0%nat
    /\ (Binary64.std_val col = 0 ->
        Binary64.prob_extreme col
        = Binary64.of_nat (Binary64.count_exceeding (Binary64.mean_val col) col)
          / Binary64.of_nat (Binary64.count_present col)).
Proof.
  intros col Hne. split; [| split].
  - apply frequency_above. exact Hne.
  - unfold Binary64.count_exceeding. cbn [filter].
    rewrite ltb_irrefl. reflexivity.
  - intro Hzero. unfold Binary64.prob_extreme. rewrite Hzero.
    change (2 * 0) with 0.
    rewrite (frequency_above _ col Hne). do 2 f_equal.
    unfold Binary64.count_exceeding. apply filter_ext_length.
    intro c. apply ltb_add_zero.
Qed.

Lemma C5_witness :
  Binary64.count_present Binary64.one_above = 5%nat
  /\ Binary64.count_exceeding
       (Binary64.mean_val Binary64.one_above
        + 2 * Binary64.std_val Binary64.one_above) Binary64.one_above
     = 1%nat
  /\ Binary64.prob_extreme Binary64.one_above
     = Binary64.of_nat 1 / Binary64.of_nat 5.
Proof.
  assert (Hpresent : Binary64.count_present Binary64.one_above <> 0%nat)
    by discriminate.
  split; [reflexivity |]. split; [vm_compute; reflexivity |].
  replace 1%nat
    with (Binary64.count_exceeding
            (Binary64.mean_val Binary64.one_above
             + 2 * Binary64.std_val Binary64.one_above) Binary64.one_above)
    by (vm_compute; reflexivity).
  apply (proj1 (C5_exceedance_frequency Binary64.one_above Hpresent)).
Defined.

(** Four times 30.8, a missing value and 41.0: the doubles of mean,
    standard deviation (divisor 5) and frequency. *)
Lemma one_above_statistics :
  Binary64.mean_val Binary64.one_above = 32.839999999999996
  /\ Binary64.std_val Binary64.one_above = 4.079999999999999
  /\ Binary64.mean_val Binary64.one_above
     + 2 * Binary64.std_val Binary64.one_above = 40.99999999999999
  /\ Binary64.prob_extreme Binary64.one_above = 0.2.
Proof. repeat split; vm_compute; reflexivity. Qed.

(** A value on the threshold: four times 87.44 and 105.8 have
    [mean_val + 2 * std_val] equal to 105.8, and the frequency is 0. *)
Lemma on_threshold_not_counted :
  Binary64.mean_val Binary64.on_threshold
  + 2 * Binary64.std_val Binary64.on_threshold = 105.8
  /\ Binary64.prob_extreme Binary64.on_threshold = 0.
Proof. split; vm_compute; reflexivity. Qed.

(** C5 fails as stated: for the values 0 and 2.409919865102884e-181 the
    squared deviations underflow, std_dev is 0, and one of the two values
    lies above the threshold, so the exceedance frequency is 0.5. *)
Lemma C5_counterexample :
  Binary64.count_present Binary64.tiny_spread = 2%nat
  /\ Binary64.std_val Binary64.tiny_spread = 0
  /\ Binary64.prob_extreme Binary64.tiny_spread = 0.5
  /\ (Binary64.prob_extreme Binary64.tiny_spread =? 0) = false.
Proof. repeat split; vm_compute; reflexivity. Qed.

End Binary64Facts.
